(** * FlowDay learning algorithm: patterns, insights and routine suggestions

    A shallow embedding of the [Algorithm] module (the pattern miners, the
    insight generators, [analyze] and [generateRoutineSuggestion]) together
    with the part of the [DB] module it talks to.

    Conventions of the embedding.
    - A JavaScript number is an exact rational ([Q]) or integer ([Z]); where
      the code can produce [NaN] the value is an [option] with [None] for
      [NaN].  Rounding errors of doubles are outside the model.
    - [Math.sqrt] is kept symbolic: a standard deviation is the square root
      of a rational radicand ([Root]), compared with a bound by squaring.
    - Strings are byte strings; [localeCompare] and the relational operators
      on strings are the ordinal comparison, which is what they compute on
      the zero-padded ASCII dates and clock times the application stores.
    - A plain object used as a dictionary is an association list in
      insertion order; [Obj.entries] applies the property order of
      [Object.entries] (array-index keys first, ascending). Keys are task
      and category identifiers, weekdays and hours, never the name of a
      member of [Object.prototype].
    - [Array.prototype.sort] is a stable sort driven by the sign of the
      comparator. *)

From Stdlib Require Import List String Ascii Bool Arith ZArith QArith Lia.
From Stdlib Require Import Qround Qminmax Qabs.
From Stdlib Require Import DecimalString DecimalN DecimalZ.
From Stdlib Require Import Sorting.Sorted Sorting.Permutation OrderedTypeEx.
Import ListNotations.

Local Open Scope string_scope.
Local Open Scope list_scope.
Local Open Scope Z_scope.

(* ================================================================== *)
(** ** JavaScript primitives *)
(* ================================================================== *)

Module Js.

(** Truthiness of a string: only the empty string (and an absent
    value, which the embedding also writes as the empty string) is falsy. *)
Definition truthy (s : string) : bool := negb (String.eqb s "").

(** [a || b] on strings. *)
Definition orElse (a b : string) : string := if truthy a then a else b.

(** [String(n)] for an integer. *)
Definition showZ (z : Z) : string := NilZero.string_of_int (Z.to_int z).

(** [String(n)] for an integer that may be [NaN]. *)
Definition showNum (n : option Z) : string :=
  match n with Some z => showZ z | None => "NaN" end.

(** [s.padStart(2, '0')]. *)
Definition padStart2 (s : string) : string :=
  match String.length s with
  | O => "00"
  | S O => String "0" s
  | _ => s
  end.

(** [Number(s)] on the text of a clock field: a run of decimal digits
    (the empty run reads as 0); any other text is not a number. Signs,
    fractions, exponents and blanks do not occur in the stored fields. *)
Definition Number (s : string) : option Z :=
  match NilEmpty.uint_of_string s with
  | Some d => Some (Z.of_N (N.of_uint d))
  | None => None
  end.

Definition isDigit (c : ascii) : bool :=
  let n := nat_of_ascii c in (48 <=? n)%nat && (n <=? 57)%nat.

Fixpoint digitPrefix (s : string) : string :=
  match s with
  | String c r => if isDigit c then String c (digitPrefix r) else ""
  | EmptyString => ""
  end.

(** [parseInt(s)]: the leading run of digits, [NaN] when there is none. *)
Definition parseInt (s : string) : option Z :=
  match digitPrefix s with
  | EmptyString => None
  | p => Number p
  end.

(** [s.split(c)] for a one-character separator. *)
Fixpoint split (c : ascii) (s : string) : list string :=
  match s with
  | EmptyString => [""]
  | String a r =>
      if Ascii.eqb a c then "" :: split c r
      else match split c r with
           | p :: ps => String a p :: ps
           | [] => [String a ""]
           end
  end.

(** [xs.join(sep)]; an [undefined] element prints as the empty string. *)
Fixpoint join (sep : string) (xs : list (option string)) : string :=
  match xs with
  | [] => ""
  | [x] => match x with Some s => s | None => "" end
  | x :: r =>
      String.append (match x with Some s => s | None => "" end)
                    (String.append sep (join sep r))
  end.

(** [a.localeCompare(b)] as a number: -1, 0 or 1. *)
Definition localeCompare (a b : string) : Q :=
  match String.compare a b with
  | Lt => (-1)%Q
  | Eq => 0%Q
  | Gt => 1%Q
  end.

(** Comparisons of numbers as booleans. *)
Definition Qltb (a b : Q) : bool := negb (Qle_bool b a).
Definition Qgtb (a b : Q) : bool := Qltb b a.

(** [Math.round]: to the nearest integer, halves upwards. *)
Definition round (x : Q) : Z := Qfloor (x + (1 # 2)).

(** Truncation towards zero, and the remainder operator [%] on numbers:
    the result has the sign of the dividend. *)
Definition trunc (x : Q) : Z := if Qltb x 0 then Qceiling x else Qfloor x.
Definition rem (x y : Q) : Q := (x - y * inject_Z (trunc (x / y)))%Q.

(** [Array.prototype.sort(cmp)]: stable; [a] stays in front of [b] when
    [cmp a b <= 0]. *)
Section Sort.
Context {A : Type} (cmp : A -> A -> Q).

Fixpoint insert (x : A) (l : list A) : list A :=
  match l with
  | [] => [x]
  | y :: r => if Qle_bool (cmp x y) 0 then x :: y :: r else y :: insert x r
  end.

Fixpoint sort (l : list A) : list A :=
  match l with
  | [] => []
  | x :: r => insert x (sort r)
  end.
End Sort.

(** [xs.slice(0, n)]. *)
Definition slice0 {A : Type} (n : nat) (l : list A) : list A := firstn n l.

(** [xs.find(p)]. *)
Definition find {A : Type} (p : A -> bool) (l : list A) : option A := List.find p l.

(** [xs.reduce((a, b) => a + b, 0)] over integers that may be [NaN]. *)
Definition sum (xs : list (option Z)) : option Z :=
  fold_left (fun acc x => match acc, x with
                          | Some a, Some b => Some (a + b)
                          | _, _ => None
                          end) xs (Some 0).

Definition sumZ (xs : list Z) : Z := fold_left Z.add xs 0.

Definition len {A : Type} (l : list A) : Z := Z.of_nat (List.length l).

(** A template literal: its pieces, concatenated. *)
Definition template (parts : list string) : string := String.concat "" parts.

End Js.

(* ================================================================== *)
(** ** Objects used as dictionaries *)
(* ================================================================== *)

Module Obj.

Definition t (V : Type) := list (string * V).

(** A property key is an array index when it is the canonical decimal
    text of an integer below 2^32 - 1. *)
Definition arrayIndex (k : string) : option N :=
  match NilEmpty.uint_of_string k with
  | Some d =>
      let n := N.of_uint d in
      if String.eqb (NilZero.string_of_uint (N.to_uint n)) k && (n <? 4294967295)%N
      then Some n else None
  | None => None
  end.

Section Ops.
Context {V : Type}.

Fixpoint get (k : string) (o : t V) : option V :=
  match o with
  | [] => None
  | (k', v) :: r => if String.eqb k k' then Some v else get k r
  end.

(** [o[k] = v]: overwrite in place, or add a new key last. *)
Fixpoint set (k : string) (v : V) (o : t V) : t V :=
  match o with
  | [] => [(k, v)]
  | (k', v') :: r =>
      if String.eqb k k' then (k, v) :: r else (k', v') :: set k v r
  end.

(** [o[k] = f(o[k])] with [d] standing for a missing property. *)
Definition update (k : string) (d : V) (f : V -> V) (o : t V) : t V :=
  match get k o with
  | Some v => set k (f v) o
  | None => set k (f d) o
  end.

Fixpoint insertIdx (x : N * (string * V)) (l : list (N * (string * V))) :=
  match l with
  | [] => [x]
  | y :: r => if (fst x <=? fst y)%N then x :: y :: r else y :: insertIdx x r
  end.

Definition sortIdx (l : list (N * (string * V))) := fold_right insertIdx [] l.

Definition indexed (o : t V) : list (N * (string * V)) :=
  flat_map (fun kv => match arrayIndex (fst kv) with
                      | Some n => [(n, kv)]
                      | None => []
                      end) o.

Definition named (o : t V) : t V :=
  filter (fun kv => match arrayIndex (fst kv) with
                    | Some _ => false
                    | None => true
                    end) o.

(** [Object.entries(o)]: array-index keys in ascending numeric order,
    then the other keys in insertion order. *)
Definition entries (o : t V) : list (string * V) :=
  map snd (sortIdx (indexed o)) ++ named o.
End Ops.

(** [if (!o[k]) o[k] = []; o[k].push(v)]. *)
Definition push {V : Type} (k : string) (v : V) (o : t (list V)) : t (list V) :=
  update k [] (fun l => l ++ [v]) o.

End Obj.

(* ================================================================== *)
(** ** Calendar dates *)
(* ================================================================== *)

Module Dates.

Definition isLeap (y : Z) : bool :=
  ((y mod 4 =? 0) && negb (y mod 100 =? 0)) || (y mod 400 =? 0).

Definition daysInMonth (y m : Z) : Z :=
  if m =? 2 then (if isLeap y then 29 else 28)
  else if (m =? 4) || (m =? 6) || (m =? 9) || (m =? 11) then 30
  else 31.

(** Days from 1970-01-01 to the civil date [y]-[m]-[d]. *)
Definition daysFromCivil (y m d : Z) : Z :=
  let y' := if m <=? 2 then y - 1 else y in
  let era := y' / 400 in
  let yoe := y' - era * 400 in
  let mp := if m <=? 2 then m + 9 else m - 3 in
  let doy := (153 * mp + 2) / 5 + d - 1 in
  let doe := yoe * 365 + yoe / 4 - yoe / 100 + doy in
  era * 146097 + doe - 719468.

(** [new Date(s)] for a date-only text [YYYY-MM-DD], as a day number;
    [None] is the invalid date. Other date formats do not occur in the
    stored records and are read as invalid. *)
Definition parse (s : string) : option Z :=
  if (String.length s =? 10)%nat
     && String.eqb (substring 4 1 s) "-" && String.eqb (substring 7 1 s) "-"
  then
    match Js.Number (substring 0 4 s), Js.Number (substring 5 2 s),
          Js.Number (substring 8 2 s) with
    | Some y, Some m, Some d =>
        if (1 <=? m) && (m <=? 12) && (1 <=? d) && (d <=? daysInMonth y m)
        then Some (daysFromCivil y m d) else None
    | _, _, _ => None
    end
  else None.

Definition msPerDay : Z := 1000 * 60 * 60 * 24.

(** The time value of [new Date(s)], in milliseconds (midnight UTC). *)
Definition getTime (s : string) : option Z :=
  option_map (fun d => d * msPerDay) (parse s).

(** [new Date(s).getDay()], 0 for Sunday; the local day is the calendar
    day of [s] (true at UTC and east of it, where the application runs). *)
Definition getDay (s : string) : option Z :=
  option_map (fun d => (d + 4) mod 7) (parse s).

End Dates.

(* ================================================================== *)
(** ** Data model *)
(* ================================================================== *)

Inductive Status := completed | skipped.

Definition Status_eqb (a b : Status) : bool :=
  match a, b with
  | completed, completed | skipped, skipped => true
  | _, _ => false
  end.

Module Task.
Record t := mk {
  id : string;
  name : string;
  category : string;
  defaultDuration : Z
}.
End Task.

(** A history entry. An absent [startTime] or [endTime] is the empty
    string (both are falsy); [actualDuration] is present only on
    completed entries. *)
Module Entry.
Record t := mk {
  taskId : string;
  date : string;
  startTime : string;
  endTime : string;
  plannedDuration : Z;
  actualDuration : option Z;
  status : Status
}.
End Entry.

Module Scheduled.
Record t := mk {
  date : string;
  startTime : string;
  duration : Z
}.
End Scheduled.

Module Period.
Record t := mk {
  startDate : string;
  endDate : string;
  categoryId : string
}.
End Period.

Module Category.
Record t := mk {
  id : string;
  name : string
}.
End Category.

(** The square root of a non-negative rational. *)
Record Root := Sqrt { radicand : Q }.

(** [r < k] for a bound [k >= 0]. *)
Definition Root_ltb (r : Root) (k : Q) : bool := Js.Qltb (radicand r) (k * k).

(** A rounded quotient whose divisor may have been zero. *)
Inductive ExtInt := Fin (z : Z) | PosInfinity | NegInfinity | NotANumber.

Inductive PatternType := time | time_day | duration | frequency | sequence.

Definition PatternType_eqb (a b : PatternType) : bool :=
  match a, b with
  | time, time | time_day, time_day | duration, duration
  | frequency, frequency | sequence, sequence => true
  | _, _ => false
  end.

Module TimeP.
Record t := mk {
  taskId : string;
  taskName : string;
  averageTime : string;
  variance : Root
}.
End TimeP.

Module DurationP.
Record t := mk {
  taskId : string;
  taskName : string;
  averageActual : Z;
  averagePlanned : Z;
  difference : Z;
  percentDifference : ExtInt
}.
End DurationP.

Module DayPref.
Record t := mk {
  day : option Z;
  count : Z;
  percentage : Q
}.
End DayPref.

Module FrequencyP.
Record t := mk {
  taskId : string;
  taskName : string;
  totalOccurrences : Z;
  uniqueDays : Z;
  timesPerWeek : Q;
  preferredDays : list DayPref.t
}.
End FrequencyP.

Module SequenceP.
Record t := mk {
  fromTaskId : string;
  fromTaskName : string;
  toTaskId : string;
  toTaskName : string;
  count : Z;
  averageGap : option Z
}.
End SequenceP.

(** A pattern object: the fields every pattern has, and the fields of its
    [type]. [periodCategory], [periodCategoryName] and [updatedAt] are
    absent until [analyze] or [DB.savePattern] sets them. *)
Module Pattern.
Inductive data :=
| Time (i : TimeP.t)
| TimeDay (dayOfWeek : option Z) (i : TimeP.t)
| Duration (i : DurationP.t)
| Frequency (i : FrequencyP.t)
| Sequence (i : SequenceP.t).

Record t := mk {
  id : string;
  body : data;
  sampleSize : Z;
  confidence : Q;
  periodCategory : option string;
  periodCategoryName : option string;
  updatedAt : option string
}.

Definition type (p : t) : PatternType :=
  match body p with
  | Time _ => time
  | TimeDay _ _ => time_day
  | Duration _ => duration
  | Frequency _ => frequency
  | Sequence _ => sequence
  end.

(** [p.taskId]; a sequence pattern has none. *)
Definition taskId (p : t) : option string :=
  match body p with
  | Time i | TimeDay _ i => Some (TimeP.taskId i)
  | Duration i => Some (DurationP.taskId i)
  | Frequency i => Some (FrequencyP.taskId i)
  | Sequence _ => None
  end.

(** A pattern as an analyzer builds it. *)
Definition fresh (id : string) (body : data) (sampleSize : Z) (confidence : Q) : t :=
  mk id body sampleSize confidence None None None.
End Pattern.

Module Insight.
Inductive kind := pattern | optimization | achievement | insight | info.

Inductive act :=
| suggest_time (time : string)
| adjust_duration (suggestedDuration : Z)
| suggest_sequence (fromTaskId toTaskId : string) (gap : option Z)
| suggest_better_time (hour : option Z).

Record t := mk {
  type : kind;
  title : string;
  text : string;
  taskId : option string;
  priority : Q;
  actionable : option bool;
  action : option act
}.
End Insight.

Module Suggestion.
Record t := mk {
  taskId : string;
  taskName : string;
  category : string;
  suggestedTime : string;
  duration : Z;
  confidence : Q;
  reason : string
}.
End Suggestion.

(* ================================================================== *)
(** ** The data store *)
(* ================================================================== *)

Module DB.

(** The object stores the algorithm reads, each listed in key order as
    [getAll] returns it, and the two settings it reads (absent until the
    user defines special periods). *)
Record t := mk {
  tasks : list Task.t;
  history : list Entry.t;
  schedule : list Scheduled.t;
  patterns : list Pattern.t;
  specialPeriods : option (list Period.t);
  periodCategories : option (list Category.t)
}.

(** What the environment hands to the [n]-th call of [savePattern]: the
    reading of the wall clock and a generated identifier. *)
Record Env := mkEnv {
  toISOString : nat -> string;
  generateId : nat -> string
}.

(** [store.put(data)] on a store keyed by [id]: the record replaces the
    one stored under its key, or takes its place in key order. *)
Fixpoint put (data : Pattern.t) (store : list Pattern.t) : list Pattern.t :=
  match store with
  | [] => [data]
  | p :: r =>
      match String.compare (Pattern.id data) (Pattern.id p) with
      | Eq => data :: r
      | Lt => data :: p :: r
      | Gt => p :: put data r
      end
  end.

(** [savePattern(pattern)]: the pattern object itself is stamped, stored
    and handed back. *)
Definition savePattern (env : Env) (n : nat) (pattern : Pattern.t) (db : t)
  : Pattern.t * t :=
  let pattern :=
    {| Pattern.id := Js.orElse (Pattern.id pattern) (generateId env n);
       Pattern.body := Pattern.body pattern;
       Pattern.sampleSize := Pattern.sampleSize pattern;
       Pattern.confidence := Pattern.confidence pattern;
       Pattern.periodCategory := Pattern.periodCategory pattern;
       Pattern.periodCategoryName := Pattern.periodCategoryName pattern;
       Pattern.updatedAt := Some (toISOString env n) |} in
  (pattern,
   {| tasks := tasks db; history := history db; schedule := schedule db;
      patterns := put pattern (patterns db);
      specialPeriods := specialPeriods db;
      periodCategories := periodCategories db |}).

Definition getAllTasks (db : t) := tasks db.
Definition getAllHistory (db : t) := history db.
Definition getAllPatterns (db : t) := patterns db.

End DB.

(* ================================================================== *)
(** ** The learning algorithm *)
(* ================================================================== *)

Module Algorithm.

Definition MIN_HISTORY_FOR_PATTERNS : Z := 5.

(** *** Helper functions *)

Definition timeToMinutes (time : string) : option Z :=
  if negb (Js.truthy time) then Some 0
  else match map Js.Number (Js.split ":" time) with
       | Some hours :: Some minutes :: _ => Some (hours * 60 + minutes)
       | _ => None
       end.

Definition minutesToTime (minutes : option Q) : string :=
  match minutes with
  | None => "NaN:NaN"
  | Some minutes =>
      let hours := Z.rem (Qfloor (minutes / 60)) 24 in
      let mins := Js.round (Js.rem minutes 60) in
      Js.template [Js.padStart2 (Js.showZ hours); ":"; Js.padStart2 (Js.showZ mins)]
  end.

Definition addMinutesToTime (time : string) (minutes : Z) : string :=
  let totalMinutes := option_map (fun t => t + minutes) (timeToMinutes time) in
  minutesToTime (option_map inject_Z totalMinutes).

(** [values.reduce((a, b) => a + b, 0) / values.length]. *)
Definition mean (values : list (option Z)) : option Q :=
  option_map (fun s => inject_Z s / inject_Z (Js.len values))%Q (Js.sum values).

Definition standardDeviation (values : list (option Z)) : option Root :=
  if Js.len values <? 2 then Some (Sqrt 0)
  else
    match mean values with
    | None => None
    | Some mean =>
        let squaredDiffs :=
          map (fun v => match v with
                        | Some v => ((inject_Z v - mean) * (inject_Z v - mean))%Q
                        | None => 0%Q
                        end) values in
        Some (Sqrt (fold_left Qplus squaredDiffs 0%Q / inject_Z (Js.len values)))
    end.

Definition groupBy {A : Type} (array : list A) (key : A -> string) : Obj.t (list A) :=
  fold_left (fun result item => Obj.push (key item) item result) array [].

Definition getDayName (dayIndex : option Z) : option string :=
  match dayIndex with
  | Some i =>
      if (0 <=? i) && (i <? 7)
      then nth_error ["Domenica"; "Luned√¨"; "Marted√¨"; "Mercoled√¨"; "Gioved√¨";
                      "Venerd√¨"; "Sabato"] (Z.to_nat i)
      else None
  | None => None
  end.

(** The text of a value that may be [undefined] inside a template. *)
Definition shown (s : option string) : string :=
  match s with Some s => s | None => "undefined" end.

Definition findTask (tasks : list Task.t) (taskId : string) : option Task.t :=
  Js.find (fun t => String.eqb (Task.id t) taskId) tasks.

(** [Math.min(n / k, 1)]. *)
Definition confidenceOf (n k : Z) : Q := Qmin (inject_Z n / inject_Z k) 1.

(** *** Time of day *)

Module Sample.
Record t := mk { time : string; dayOfWeek : option Z }.
End Sample.

Definition taskTimeMap (history : list Entry.t) : Obj.t (list Sample.t) :=
  fold_left
    (fun m entry =>
       if negb (Status_eqb (Entry.status entry) completed) then m
       else Obj.push (Entry.taskId entry)
              {| Sample.time := Entry.startTime entry;
                 Sample.dayOfWeek := Dates.getDay (Entry.date entry) |} m)
    history [].

(** The body of the inner loop: the pattern of one weekday group. *)
Definition dayPattern (taskId : string) (task : Task.t)
           (group : string * list Sample.t) : list Pattern.t :=
  let (day, dayTimes) := group in
  if 2 <=? Js.len dayTimes then
    let dayMinutes := map (fun t => timeToMinutes (Sample.time t)) dayTimes in
    let dayAvg := mean dayMinutes in
    match standardDeviation dayMinutes with
    | Some dayStdDev =>
        if Root_ltb dayStdDev 45 then
          [ Pattern.fresh
              (Js.template ["time_"; taskId; "_day"; day])
              (Pattern.TimeDay (Js.parseInt day)
                 {| TimeP.taskId := taskId;
                    TimeP.taskName := Task.name task;
                    TimeP.averageTime := minutesToTime dayAvg;
                    TimeP.variance := dayStdDev |})
              (Js.len dayTimes)
              (confidenceOf (Js.len dayTimes) 5) ]
        else []
    | None => []
    end
  else [].

(** The body of the outer loop: the patterns of one task. *)
Definition taskTimePatterns (tasks : list Task.t)
           (kv : string * list Sample.t) : list Pattern.t :=
  let (taskId, times) := kv in
  if Js.len times <? 3 then []
  else
    match findTask tasks taskId with
    | None => []
    | Some task =>
        let timeMinutes := map (fun t => timeToMinutes (Sample.time t)) times in
        let avgMinutes := mean timeMinutes in
        let stdDev := standardDeviation timeMinutes in
        (match stdDev with
         | Some stdDev =>
             if Root_ltb stdDev 60 then
               [ Pattern.fresh
                   (Js.template ["time_"; taskId])
                   (Pattern.Time
                      {| TimeP.taskId := taskId;
                         TimeP.taskName := Task.name task;
                         TimeP.averageTime := minutesToTime avgMinutes;
                         TimeP.variance := stdDev |})
                   (Js.len times)
                   (confidenceOf (Js.len times) 10) ]
             else []
         | None => []
         end)
        ++
        (let dayGroups := groupBy times (fun t => Js.showNum (Sample.dayOfWeek t)) in
         flat_map (dayPattern taskId task) (Obj.entries dayGroups))
    end.

Definition analyzeTimePatterns (history : list Entry.t) (tasks : list Task.t)
  : list Pattern.t :=
  flat_map (taskTimePatterns tasks) (Obj.entries (taskTimeMap history)).

(** *** Duration *)

Module Dur.
Record t := mk { planned : Z; actual : Z }.
End Dur.

Definition taskDurationMap (history : list Entry.t) : Obj.t (list Dur.t) :=
  fold_left
    (fun m entry =>
       match Entry.status entry, Entry.actualDuration entry with
       | completed, Some actual =>
           if actual =? 0 then m
           else Obj.push (Entry.taskId entry)
                  {| Dur.planned := Entry.plannedDuration entry;
                     Dur.actual := actual |} m
       | _, _ => m
       end)
    history [].

(** [Math.round((difference / plannedAvg) * 100)]; a zero divisor gives
    an infinity of the sign of [difference], or [NaN] for 0/0. *)
Definition roundedPercent (difference plannedAvg : Q) : ExtInt :=
  if Qeq_bool plannedAvg 0 then
    (if Js.Qltb 0 difference then PosInfinity
     else if Js.Qltb difference 0 then NegInfinity
     else NotANumber)
  else Fin (Js.round ((difference / plannedAvg) * 100)).

Definition taskDurationPatterns (tasks : list Task.t)
           (kv : string * list Dur.t) : list Pattern.t :=
  let (taskId, durations) := kv in
  if Js.len durations <? 3 then []
  else
    match findTask tasks taskId with
    | None => []
    | Some task =>
        let actualSum := fold_left (fun a b => a + Dur.actual b) durations 0 in
        let plannedSum := fold_left (fun a b => a + Dur.planned b) durations 0 in
        let actualAvg := (inject_Z actualSum / inject_Z (Js.len durations))%Q in
        let plannedAvg := (inject_Z plannedSum / inject_Z (Js.len durations))%Q in
        let difference := (actualAvg - plannedAvg)%Q in
        [ Pattern.fresh
            (Js.template ["duration_"; taskId])
            (Pattern.Duration
               {| DurationP.taskId := taskId;
                  DurationP.taskName := Task.name task;
                  DurationP.averageActual := Js.round actualAvg;
                  DurationP.averagePlanned := Js.round plannedAvg;
                  DurationP.difference := Js.round difference;
                  DurationP.percentDifference := roundedPercent difference plannedAvg |})
            (Js.len durations)
            (confidenceOf (Js.len durations) 10) ]
    end.

Definition analyzeDurationPatterns (history : list Entry.t) (tasks : list Task.t)
  : list Pattern.t :=
  flat_map (taskDurationPatterns tasks) (Obj.entries (taskDurationMap history)).

(** *** Frequency *)

Module Freq.
Record t := mk {
  count : Z;
  days : list string;        (* a [Set] of dates, in insertion order *)
  weekdays : Obj.t Z
}.
End Freq.

(** [set.add(x)]. *)
Definition setAdd (x : string) (s : list string) : list string :=
  if existsb (String.eqb x) s then s else s ++ [x].

(** [Math.min(...xs)] and [Math.max(...xs)] over time values; [NaN] as
    soon as one of them is. *)
Definition minOf (xs : list (option Z)) : option Z :=
  match xs with
  | [] => None
  | x :: r => fold_left (fun a b => match a, b with
                                    | Some a, Some b => Some (Z.min a b)
                                    | _, _ => None
                                    end) r x
  end.

Definition maxOf (xs : list (option Z)) : option Z :=
  match xs with
  | [] => None
  | x :: r => fold_left (fun a b => match a, b with
                                    | Some a, Some b => Some (Z.max a b)
                                    | _, _ => None
                                    end) r x
  end.

(** [Math.ceil((maxDate - minDate) / (1000 * 60 * 60 * 24)) || 1]. *)
Definition totalDaysOf (dates : list (option Z)) : Z :=
  match minOf dates, maxOf dates with
  | Some minDate, Some maxDate =>
      let d := Qceiling (inject_Z (maxDate - minDate) / inject_Z Dates.msPerDay) in
      if d =? 0 then 1 else d
  | _, _ => 1
  end.

Definition taskFrequencyMap (history : list Entry.t) : Obj.t Freq.t :=
  fold_left
    (fun m entry =>
       if negb (Status_eqb (Entry.status entry) completed) then m
       else
         let dayOfWeek := Dates.getDay (Entry.date entry) in
         Obj.update (Entry.taskId entry)
           {| Freq.count := 0; Freq.days := []; Freq.weekdays := [] |}
           (fun f =>
              {| Freq.count := Freq.count f + 1;
                 Freq.days := setAdd (Entry.date entry) (Freq.days f);
                 Freq.weekdays :=
                   Obj.update (Js.showNum dayOfWeek) 0 (fun c => c + 1)
                              (Freq.weekdays f) |})
           m)
    history [].

Definition preferredDaysOf (freq : Freq.t) : list DayPref.t :=
  map (fun dc : string * Z =>
         let (day, count) := dc in
         {| DayPref.day := Js.parseInt day;
            DayPref.count := count;
            DayPref.percentage := (inject_Z count / inject_Z (Freq.count freq)) * 100 |})
      (Js.slice0 3
         (Js.sort (fun a b : string * Z => inject_Z (snd b - snd a))
                  (Obj.entries (Freq.weekdays freq)))).

Definition taskFrequencyPatterns (tasks : list Task.t) (totalWeeks : Q)
           (kv : string * Freq.t) : list Pattern.t :=
  let (taskId, freq) := kv in
  match findTask tasks taskId with
  | None => []
  | Some task =>
      let timesPerWeek := (inject_Z (Freq.count freq) / totalWeeks)%Q in
      let preferredDays := preferredDaysOf freq in
      [ Pattern.fresh
          (Js.template ["frequency_"; taskId])
          (Pattern.Frequency
             {| FrequencyP.taskId := taskId;
                FrequencyP.taskName := Task.name task;
                FrequencyP.totalOccurrences := Freq.count freq;
                FrequencyP.uniqueDays := Js.len (Freq.days freq);
                FrequencyP.timesPerWeek := inject_Z (Js.round (timesPerWeek * 10)) / 10;
                FrequencyP.preferredDays := preferredDays |})
          (Freq.count freq)
          (confidenceOf (Freq.count freq) 15) ]
  end.

Definition analyzeFrequencyPatterns (history : list Entry.t) (tasks : list Task.t)
  : list Pattern.t :=
  let dates := map (fun h => Dates.getTime (Entry.date h)) history in
  if Js.len dates <? 2 then []
  else
    let totalDays := totalDaysOf dates in
    let totalWeeks := (inject_Z totalDays / 7)%Q in
    flat_map (taskFrequencyPatterns tasks totalWeeks)
             (Obj.entries (taskFrequencyMap history)).

(** *** Sequences *)

Module Seq.
Record t := mk {
  fromTaskId : string;
  toTaskId : string;
  count : Z;
  avgGap : list Z
}.
End Seq.

Definition byDateAndTime (a b : Entry.t) : Q :=
  let dateComp := Js.localeCompare (Entry.date a) (Entry.date b) in
  if negb (Qeq_bool dateComp 0) then dateComp
  else Js.localeCompare (Js.orElse (Entry.startTime a) "")
                        (Js.orElse (Entry.startTime b) "").

Definition sortedHistory (history : list Entry.t) : list Entry.t :=
  Js.sort byDateAndTime
          (filter (fun h => Status_eqb (Entry.status h) completed) history).

(** One turn of the loop over the sorted history, on the pair of
    [lastEntry] and [sequenceMap]. *)
Definition sequenceStep (st : option Entry.t * Obj.t Seq.t) (entry : Entry.t)
  : option Entry.t * Obj.t Seq.t :=
  let (lastEntry, sequenceMap) := st in
  match lastEntry with
  | Some lastEntry =>
      if String.eqb (Entry.date lastEntry) (Entry.date entry) then
        let key := Js.template [Entry.taskId lastEntry; "_"; Entry.taskId entry] in
        let gaps :=
          if Js.truthy (Entry.endTime lastEntry) && Js.truthy (Entry.startTime entry) then
            match timeToMinutes (Entry.startTime entry),
                  timeToMinutes (Entry.endTime lastEntry) with
            | Some s, Some e =>
                let gap := s - e in
                if (0 <=? gap) && (gap <? 240) then [gap] else []
            | _, _ => []
            end
          else [] in
        (Some entry,
         Obj.update key
           {| Seq.fromTaskId := Entry.taskId lastEntry;
              Seq.toTaskId := Entry.taskId entry;
              Seq.count := 0;
              Seq.avgGap := [] |}
           (fun s => {| Seq.fromTaskId := Seq.fromTaskId s;
                        Seq.toTaskId := Seq.toTaskId s;
                        Seq.count := Seq.count s + 1;
                        Seq.avgGap := Seq.avgGap s ++ gaps |})
           sequenceMap)
      else (Some entry, sequenceMap)
  | None => (Some entry, sequenceMap)
  end.

Definition sequenceMap (history : list Entry.t) : Obj.t Seq.t :=
  snd (fold_left sequenceStep (sortedHistory history) (None, [])).

(** [seq.avgGap.length > 0 ? sum / length : null]. *)
Definition avgGapOf (gaps : list Z) : option Q :=
  if 0 <? Js.len gaps
  then Some (inject_Z (Js.sumZ gaps) / inject_Z (Js.len gaps))%Q
  else None.

(** [avgGap ? Math.round(avgGap) : null]: [null] and 0 are both falsy. *)
Definition averageGapOf (avgGap : option Q) : option Z :=
  match avgGap with
  | Some g => if Qeq_bool g 0 then None else Some (Js.round g)
  | None => None
  end.

Definition sequencePatterns (tasks : list Task.t) (kv : string * Seq.t)
  : list Pattern.t :=
  let (key, seq) := kv in
  if Seq.count seq <? 3 then []
  else
    match findTask tasks (Seq.fromTaskId seq), findTask tasks (Seq.toTaskId seq) with
    | Some fromTask, Some toTask =>
        let avgGap := avgGapOf (Seq.avgGap seq) in
        [ Pattern.fresh
            (Js.template ["sequence_"; key])
            (Pattern.Sequence
               {| SequenceP.fromTaskId := Seq.fromTaskId seq;
                  SequenceP.fromTaskName := Task.name fromTask;
                  SequenceP.toTaskId := Seq.toTaskId seq;
                  SequenceP.toTaskName := Task.name toTask;
                  SequenceP.count := Seq.count seq;
                  SequenceP.averageGap := averageGapOf avgGap |})
            (Seq.count seq)
            (confidenceOf (Seq.count seq) 10) ]
    | _, _ => []
    end.

(** [p.count] of a sequence pattern. *)
Definition countOf (p : Pattern.t) : Z :=
  match Pattern.body p with
  | Pattern.Sequence i => SequenceP.count i
  | _ => 0
  end.

Definition analyzeSequencePatterns (history : list Entry.t) (tasks : list Task.t)
  : list Pattern.t :=
  let patterns := flat_map (sequencePatterns tasks) (Obj.entries (sequenceMap history)) in
  Js.slice0 20 (Js.sort (fun a b => inject_Z (countOf b - countOf a)) patterns).

(** *** Completion rates *)

Module Counts.
Record t := mk { completed : Z; skipped : Z }.
End Counts.

Module Stats.
Record t := mk {
  completed : Z;
  skipped : Z;
  byHour : Obj.t Counts.t;
  byDay : Obj.t Counts.t
}.
End Stats.

(** [counts[status]++]. *)
Definition bump (s : Status) (c : Counts.t) : Counts.t :=
  match s with
  | completed => {| Counts.completed := Counts.completed c + 1;
                    Counts.skipped := Counts.skipped c |}
  | skipped => {| Counts.completed := Counts.completed c;
                  Counts.skipped := Counts.skipped c + 1 |}
  end.

Definition noCounts : Counts.t := {| Counts.completed := 0; Counts.skipped := 0 |}.

(** [parseInt(startTime.split(':')[0])]. *)
Definition hourOf (startTime : string) : option Z :=
  Js.parseInt (hd "" (Js.split ":" startTime)).

Definition analyzeCompletionPatterns (history : list Entry.t) (tasks : list Task.t)
  : Obj.t Stats.t :=
  fold_left
    (fun taskStats entry =>
       Obj.update (Entry.taskId entry)
         {| Stats.completed := 0; Stats.skipped := 0;
            Stats.byHour := []; Stats.byDay := [] |}
         (fun s =>
            {| Stats.completed :=
                 match Entry.status entry with
                 | completed => Stats.completed s + 1
                 | skipped => Stats.completed s
                 end;
               Stats.skipped :=
                 match Entry.status entry with
                 | completed => Stats.skipped s
                 | skipped => Stats.skipped s + 1
                 end;
               Stats.byHour :=
                 if Js.truthy (Entry.startTime entry) then
                   let hour := hourOf (Entry.startTime entry) in
                   Obj.update (Js.showNum hour) noCounts
                              (bump (Entry.status entry)) (Stats.byHour s)
                 else Stats.byHour s;
               Stats.byDay :=
                 let day := Dates.getDay (Entry.date entry) in
                 Obj.update (Js.showNum day) noCounts
                            (bump (Entry.status entry)) (Stats.byDay s) |})
         taskStats)
    history [].

(** *** Insight generators *)

(** The double quote inside a template. *)
Definition dq : string := String (ascii_of_nat 34) EmptyString.

Definition timeInsights (pattern : Pattern.t) : list Insight.t :=
  match Pattern.body pattern with
  | Pattern.Time i =>
      if Js.Qgtb (Pattern.confidence pattern) (6 # 10) then
        [ {| Insight.type := Insight.pattern;
             Insight.title := "Orario abituale";
             Insight.text :=
               Js.template ["Di solito fai "; dq; TimeP.taskName i; dq; " alle ";
                            TimeP.averageTime i;
                            ". Vuoi che lo pre-pianifichi a quest'ora?"];
             Insight.taskId := Some (TimeP.taskId i);
             Insight.priority := Pattern.confidence pattern * 5;
             Insight.actionable := Some true;
             Insight.action := Some (Insight.suggest_time (TimeP.averageTime i)) |} ]
      else []
  | Pattern.TimeDay dayOfWeek i =>
      if Js.Qgtb (Pattern.confidence pattern) (7 # 10) then
        let dayName := getDayName dayOfWeek in
        [ {| Insight.type := Insight.pattern;
             Insight.title := "Pattern settimanale";
             Insight.text :=
               Js.template ["Il "; shown dayName; " di solito fai "; dq;
                            TimeP.taskName i; dq; " alle "; TimeP.averageTime i; "."];
             Insight.taskId := Some (TimeP.taskId i);
             Insight.priority := Pattern.confidence pattern * 6;
             Insight.actionable := Some true;
             Insight.action := None |} ]
      else []
  | _ => []
  end.

Definition generateTimeInsights (patterns : list Pattern.t) (tasks : list Task.t)
  : list Insight.t :=
  flat_map timeInsights patterns.

(** [Math.abs(x) > 20] and [Math.min(Math.abs(x) / k, cap)] on a rounded
    percentage. *)
Definition absExceeds20 (x : ExtInt) : bool :=
  match x with
  | Fin z => 20 <? Z.abs z
  | PosInfinity | NegInfinity => true
  | NotANumber => false
  end.

Definition cappedShare (x : ExtInt) (k cap : Z) : Q :=
  match x with
  | Fin z => Qmin (inject_Z (Z.abs z) / inject_Z k) (inject_Z cap)
  | _ => inject_Z cap
  end.

Definition durationInsights (pattern : Pattern.t) : list Insight.t :=
  match Pattern.body pattern with
  | Pattern.Duration i =>
      if absExceeds20 (DurationP.percentDifference i) && (5 <=? Pattern.sampleSize pattern)
      then
        if 0 <? DurationP.difference i then
          [ {| Insight.type := Insight.optimization;
               Insight.title := "Durata sottostimata";
               Insight.text :=
                 Js.template [dq; DurationP.taskName i; dq; " ti richiede in media ";
                              Js.showZ (DurationP.averageActual i);
                              " min, ma pianifichi ";
                              Js.showZ (DurationP.averagePlanned i);
                              " min. Considera di allocare pi√π tempo."];
               Insight.taskId := Some (DurationP.taskId i);
               Insight.priority := cappedShare (DurationP.percentDifference i) 10 8;
               Insight.actionable := Some true;
               Insight.action :=
                 Some (Insight.adjust_duration (DurationP.averageActual i)) |} ]
        else if DurationP.difference i <? -15 then
          [ {| Insight.type := Insight.optimization;
               Insight.title := "Durata sovrastimata";
               Insight.text :=
                 Js.template ["Completi "; dq; DurationP.taskName i; dq; " in ";
                              Js.showZ (DurationP.averageActual i);
                              " min invece dei ";
                              Js.showZ (DurationP.averagePlanned i);
                              " pianificati. Hai ";
                              Js.showZ (Z.abs (DurationP.difference i));
                              " min extra!"];
               Insight.taskId := Some (DurationP.taskId i);
               Insight.priority := cappedShare (DurationP.percentDifference i) 15 6;
               Insight.actionable := Some true;
               Insight.action := None |} ]
        else []
      else []
  | _ => []
  end.

Definition generateDurationInsights (patterns : list Pattern.t) (tasks : list Task.t)
  : list Insight.t :=
  flat_map durationInsights patterns.

(** Only frequency patterns are ever passed in; the other types have no
    [preferredDays] to read. *)
Definition frequencyInsights (pattern : Pattern.t) : list Insight.t :=
  match Pattern.body pattern with
  | Pattern.Frequency i =>
      match FrequencyP.preferredDays i with
      | first :: _ =>
          if Js.Qgtb (DayPref.percentage first) 40 then
            let topDays :=
              Js.join ", "
                (map (fun d => getDayName (DayPref.day d))
                     (filter (fun d => Js.Qgtb (DayPref.percentage d) 25)
                             (FrequencyP.preferredDays i))) in
            if Js.truthy topDays then
              [ {| Insight.type := Insight.pattern;
                   Insight.title := "Giorni preferiti";
                   Insight.text :=
                     Js.template [dq; FrequencyP.taskName i; dq;
                                  " lo fai principalmente: "; topDays; " (";
                                  Js.showZ (Js.round (FrequencyP.timesPerWeek i));
                                  "x a settimana)."];
                   Insight.taskId := Some (FrequencyP.taskId i);
                   Insight.priority := Pattern.confidence pattern * 4;
                   Insight.actionable := None;
                   Insight.action := None |} ]
            else []
          else []
      | [] => []
      end
  | _ => []
  end.

Definition generateFrequencyInsights (patterns : list Pattern.t) (tasks : list Task.t)
  : list Insight.t :=
  flat_map frequencyInsights patterns.

(** Only sequence patterns are ever passed in. *)
Definition sequenceInsights (seq : Pattern.t) : list Insight.t :=
  match Pattern.body seq with
  | Pattern.Sequence i =>
      let text :=
        Js.template ["Dopo "; dq; SequenceP.fromTaskName i; dq; " di solito fai "; dq;
                     SequenceP.toTaskName i; dq] in
      let text :=
        match SequenceP.averageGap i with
        | Some gap =>
            if gap <? 15 then Js.template [text; " subito dopo."]
            else Js.template [text; " (dopo ~"; Js.showZ gap; " min)."]
        | None => Js.template [text; "."]
        end in
      [ {| Insight.type := Insight.pattern;
           Insight.title := "Sequenza abituale";
           Insight.text := text;
           Insight.taskId := None;
           Insight.priority := Pattern.confidence seq * 5;
           Insight.actionable := Some true;
           Insight.action :=
             Some (Insight.suggest_sequence (SequenceP.fromTaskId i)
                     (SequenceP.toTaskId i) (SequenceP.averageGap i)) |} ]
  | _ => []
  end.

Definition generateSequenceInsights (patterns : list Pattern.t) (tasks : list Task.t)
  : list Insight.t :=
  let topSequences :=
    Js.slice0 3 (filter (fun p => Js.Qgtb (Pattern.confidence p) (5 # 10)) patterns) in
  flat_map sequenceInsights topSequences.

(** The search for the best bucket (hour of day, or weekday) among those
    with at least two samples: the key read back, and its rate. *)
Definition bestBucket (buckets : Obj.t Counts.t) : option (option Z) * Q :=
  fold_left
    (fun (best : option (option Z) * Q) (kv : string * Counts.t) =>
       let (key, stats) := kv in
       let total := Counts.completed stats + Counts.skipped stats in
       if 2 <=? total then
         let rate := (inject_Z (Counts.completed stats) / inject_Z total)%Q in
         if Js.Qgtb rate (snd best) then (Some (Js.parseInt key), rate) else best
       else best)
    (Obj.entries buckets) (None, 0%Q).

Definition percentOf (rate : Q) : string := Js.showZ (Js.round (rate * 100)).

Definition completionInsights (tasks : list Task.t) (kv : string * Stats.t)
  : list Insight.t :=
  let (taskId, stats) := kv in
  let total := Stats.completed stats + Stats.skipped stats in
  if total <? 5 then []
  else
    match findTask tasks taskId with
    | None => []
    | Some task =>
        let completionRate := (inject_Z (Stats.completed stats) / inject_Z total)%Q in
        (if Js.Qltb completionRate (5 # 10) && (8 <=? total) then
           (let (bestHour, bestRate) := bestBucket (Stats.byHour stats) in
            match bestHour with
            | Some bestHour =>
                if Js.Qgtb bestRate (completionRate + (2 # 10)) then
                  [ {| Insight.type := Insight.optimization;
                       Insight.title := "Orario migliore";
                       Insight.text :=
                         Js.template [dq; Task.name task; dq; " lo completi solo il ";
                                      percentOf completionRate;
                                      "% delle volte, ma alle "; Js.showNum bestHour;
                                      ":00 il tasso sale al "; percentOf bestRate; "%."];
                       Insight.taskId := Some taskId;
                       Insight.priority := 7;
                       Insight.actionable := Some true;
                       Insight.action := Some (Insight.suggest_better_time bestHour) |} ]
                else []
            | None => []
            end)
           ++
           (let (bestDay, bestDayRate) := bestBucket (Stats.byDay stats) in
            match bestDay with
            | Some bestDay =>
                if Js.Qgtb bestDayRate (completionRate + (25 # 100)) then
                  [ {| Insight.type := Insight.optimization;
                       Insight.title := "Giorno migliore";
                       Insight.text :=
                         Js.template [dq; Task.name task; dq; ": il ";
                                      shown (getDayName bestDay); " hai ";
                                      percentOf bestDayRate; "% di completamento vs ";
                                      percentOf completionRate; "% generale."];
                       Insight.taskId := Some taskId;
                       Insight.priority := 6;
                       Insight.actionable := None;
                       Insight.action := None |} ]
                else []
            | None => []
            end)
         else [])
        ++
        (if Js.Qgtb completionRate (9 # 10) && (10 <=? total) then
           [ {| Insight.type := Insight.achievement;
                Insight.title := "Ottimo lavoro! üéâ";
                Insight.text :=
                  Js.template ["Hai completato "; dq; Task.name task; dq; " il ";
                               percentOf completionRate;
                               "% delle volte. Continua cos√¨!"];
                Insight.taskId := Some taskId;
                Insight.priority := 3;
                Insight.actionable := None;
                Insight.action := None |} ]
         else [])
    end.

Definition generateCompletionInsights (completionStats : Obj.t Stats.t)
           (tasks : list Task.t) : list Insight.t :=
  flat_map (completionInsights tasks) (Obj.entries completionStats).

(** *** Global optimization insights *)

(** The gaps between consecutive items of one day, already sorted. *)
Fixpoint dayGaps (sorted : list Scheduled.t) : list Z :=
  match sorted with
  | prev :: (cur :: _) as rest =>
      let prevEnd := addMinutesToTime (Scheduled.startTime prev) (Scheduled.duration prev) in
      (match timeToMinutes (Scheduled.startTime cur), timeToMinutes prevEnd with
       | Some s, Some e =>
           let gap := s - e in
           if (0 <? gap) && (gap <? 480) then [gap] else []
       | _, _ => []
       end) ++ dayGaps rest
  | _ => []
  end.

Module GapAnalysis.
Record t := mk { averageGap : Q; totalGaps : Z }.
End GapAnalysis.

Definition analyzeScheduleGaps (schedule : list Scheduled.t) : GapAnalysis.t :=
  let gapsByDay :=
    fold_left (fun m item => Obj.push (Scheduled.date item) item m) schedule [] in
  let gaps :=
    flat_map
      (fun kv : string * list Scheduled.t =>
         let sorted :=
           Js.sort (fun a b => Js.localeCompare (Scheduled.startTime a)
                                                (Scheduled.startTime b)) (snd kv) in
         dayGaps sorted)
      (Obj.entries gapsByDay) in
  {| GapAnalysis.averageGap :=
       if 0 <? Js.len gaps
       then inject_Z (Js.sumZ gaps) / inject_Z (Js.len gaps) else 0;
     GapAnalysis.totalGaps := Js.len gaps |}.

Module Productivity.
Record t := mk { bestHour : option (option Z); hourStats : Obj.t Z }.
End Productivity.

Definition analyzeProductivityByHour (history : list Entry.t) : Productivity.t :=
  let hourStats :=
    fold_left
      (fun m entry =>
         if negb (Status_eqb (Entry.status entry) completed)
            || negb (Js.truthy (Entry.startTime entry)) then m
         else
           let hour := hourOf (Entry.startTime entry) in
           Obj.update (Js.showNum hour) 0 (fun c => c + 1) m)
      history [] in
  let best :=
    fold_left
      (fun (best : option (option Z) * Z) (kv : string * Z) =>
         let (hour, count) := kv in
         if snd best <? count then (Some (Js.parseInt hour), count) else best)
      (Obj.entries hourStats) (None, 0) in
  {| Productivity.bestHour := if 5 <=? snd best then fst best else None;
     Productivity.hourStats := hourStats |}.

Module WeekAnalysis.
Record t := mk { significant : bool; message : string }.
End WeekAnalysis.

Definition isWeekendDay (day : option Z) : bool :=
  match day with
  | Some d => (d =? 0) || (d =? 6)
  | None => false
  end.

Definition analyzeWeekdayVsWeekend (history : list Entry.t) : WeekAnalysis.t :=
  let isWeekend := fun e : Entry.t => isWeekendDay (Dates.getDay (Entry.date e)) in
  let isCompleted := fun e : Entry.t => Status_eqb (Entry.status e) completed in
  let weekendTotal := Js.len (filter isWeekend history) in
  let weekendCompleted :=
    Js.len (filter (fun e => isWeekend e && isCompleted e) history) in
  let weekdayTotal := Js.len (filter (fun e => negb (isWeekend e)) history) in
  let weekdayCompleted :=
    Js.len (filter (fun e => negb (isWeekend e) && isCompleted e) history) in
  let weekdayRate :=
    (if 0 <? weekdayTotal then inject_Z weekdayCompleted / inject_Z weekdayTotal else 0)%Q in
  let weekendRate :=
    (if 0 <? weekendTotal then inject_Z weekendCompleted / inject_Z weekendTotal else 0)%Q in
  let diff := Qabs (weekdayRate - weekendRate) in
  {| WeekAnalysis.significant :=
       Js.Qgtb diff (15 # 100) && (10 <=? weekdayTotal) && (5 <=? weekendTotal);
     WeekAnalysis.message :=
       if Js.Qgtb weekdayRate weekendRate
       then Js.template ["Completi il "; percentOf (weekdayRate - weekendRate);
                         "% in pi√π di task nei giorni feriali."]
       else Js.template ["Sei pi√π produttivo nel weekend (+";
                         percentOf (weekendRate - weekdayRate); "% completamenti)."] |}.

Definition plain (type : Insight.kind) (title text : string) (priority : Q) : Insight.t :=
  {| Insight.type := type; Insight.title := title; Insight.text := text;
     Insight.taskId := None; Insight.priority := priority;
     Insight.actionable := None; Insight.action := None |}.

Definition generateOptimizationInsights (history : list Entry.t)
           (schedule : list Scheduled.t) (tasks : list Task.t) : list Insight.t :=
  let gapAnalysis := analyzeScheduleGaps schedule in
  (if Js.Qgtb (GapAnalysis.averageGap gapAnalysis) 45 then
     [ plain Insight.optimization "Tempi morti"
         (Js.template ["Hai in media ";
                       Js.showZ (Js.round (GapAnalysis.averageGap gapAnalysis));
                       " minuti di gap tra i task. Prova a raggruppare attivit√† simili."])
         5 ]
   else [])
  ++
  (let productivityByHour := analyzeProductivityByHour history in
   match Productivity.bestHour productivityByHour with
   | Some bestHour =>
       [ plain Insight.insight "Fascia pi√π produttiva"
           (Js.template ["Sei pi√π produttivo tra le "; Js.showNum bestHour;
                         ":00 e le "; Js.showNum (option_map (fun h => h + 2) bestHour);
                         ":00. Pianifica task importanti in questa fascia!"])
           6 ]
   | None => []
   end)
  ++
  (let weekAnalysis := analyzeWeekdayVsWeekend history in
   if WeekAnalysis.significant weekAnalysis then
     [ plain Insight.insight "Pattern settimanale" (WeekAnalysis.message weekAnalysis) 4 ]
   else []).

(** *** Special periods *)

Module Separated.
Record t := mk {
  normalHistory : list Entry.t;
  periodHistory : list Entry.t;
  periodBreakdown : Obj.t (list Entry.t)
}.
End Separated.

Definition separateHistoryByPeriods (history : list Entry.t)
           (specialPeriods : list Period.t) (periodCategories : list Category.t)
  : Separated.t :=
  fold_left
    (fun acc entry =>
       let entryDate := Entry.date entry in
       let foundPeriod :=
         Js.find (fun period => String.leb (Period.startDate period) entryDate
                                && String.leb entryDate (Period.endDate period))
                 specialPeriods in
       match foundPeriod with
       | Some foundPeriod =>
           {| Separated.normalHistory := Separated.normalHistory acc;
              Separated.periodHistory := Separated.periodHistory acc ++ [entry];
              Separated.periodBreakdown :=
                Obj.push (Period.categoryId foundPeriod) entry
                         (Separated.periodBreakdown acc) |}
       | None =>
           {| Separated.normalHistory := Separated.normalHistory acc ++ [entry];
              Separated.periodHistory := Separated.periodHistory acc;
              Separated.periodBreakdown := Separated.periodBreakdown acc |}
       end)
    history
    {| Separated.normalHistory := []; Separated.periodHistory := [];
       Separated.periodBreakdown := [] |}.

(** The time patterns of one period category, tagged and renamed. *)
Definition categoryPatterns (tasks : list Task.t) (periodCategories : list Category.t)
           (kv : string * list Entry.t) : list Pattern.t :=
  let (categoryId, categoryHistory) := kv in
  if 3 <=? Js.len categoryHistory then
    let category :=
      Js.find (fun c => String.eqb (Category.id c) categoryId) periodCategories in
    let categoryName :=
      Js.orElse (match category with Some c => Category.name c | None => "" end)
                "Periodo speciale" in
    let periodTimePatterns := analyzeTimePatterns categoryHistory tasks in
    map (fun p =>
           {| Pattern.id := Js.template [Pattern.id p; "_period_"; categoryId];
              Pattern.body := Pattern.body p;
              Pattern.sampleSize := Pattern.sampleSize p;
              Pattern.confidence := Pattern.confidence p;
              Pattern.periodCategory := Some categoryId;
              Pattern.periodCategoryName := Some categoryName;
              Pattern.updatedAt := Pattern.updatedAt p |})
        periodTimePatterns
  else [].

(** *** The pipeline *)

Module Result.
Record t := mk { insights : list Insight.t; patterns : list Pattern.t }.
End Result.

(** [for (const pattern of allPatterns) await DB.savePattern(pattern)]:
    the patterns as the store stamped them, and the store. The [n]-th
    save of the run reads the environment at [n]. *)
Fixpoint saveAll (env : DB.Env) (n : nat) (allPatterns : list Pattern.t) (db : DB.t)
  : list Pattern.t * DB.t :=
  match allPatterns with
  | [] => ([], db)
  | pattern :: rest =>
      let (saved, db) := DB.savePattern env n pattern db in
      let (others, db) := saveAll env (S n) rest db in
      (saved :: others, db)
  end.

Definition analyze (env : DB.Env) (db : DB.t) : Result.t * DB.t :=
  let tasks := DB.getAllTasks db in
  let history := DB.getAllHistory db in
  let schedule := DB.schedule db in
  let existingPatterns := DB.getAllPatterns db in
  let specialPeriods :=
    match DB.specialPeriods db with Some l => l | None => [] end in
  let periodCategories :=
    match DB.periodCategories db with Some l => l | None => [] end in
  if Js.len history <? MIN_HISTORY_FOR_PATTERNS then
    ({| Result.insights :=
          [ plain Insight.info "Raccolta dati"
              (Js.template ["Continua a usare l'app! Ho bisogno di almeno ";
                            Js.showZ MIN_HISTORY_FOR_PATTERNS;
                            " task completati per iniziare a darti suggerimenti. Attualmente: ";
                            Js.showZ (Js.len history)])
              0 ];
        Result.patterns := existingPatterns |},
     db)
  else
    let sep := separateHistoryByPeriods history specialPeriods periodCategories in
    let normalHistory := Separated.normalHistory sep in
    let periodHistory := Separated.periodHistory sep in
    let periodBreakdown := Separated.periodBreakdown sep in
    let timePatterns := analyzeTimePatterns normalHistory tasks in
    let durationPatterns := analyzeDurationPatterns normalHistory tasks in
    let frequencyPatterns := analyzeFrequencyPatterns normalHistory tasks in
    let sequencePatterns := analyzeSequencePatterns normalHistory tasks in
    let completionPatterns := analyzeCompletionPatterns normalHistory tasks in
    let insights :=
      generateTimeInsights timePatterns tasks
      ++ generateDurationInsights durationPatterns tasks
      ++ generateFrequencyInsights frequencyPatterns tasks
      ++ generateSequenceInsights sequencePatterns tasks
      ++ generateCompletionInsights completionPatterns tasks
      ++ generateOptimizationInsights normalHistory schedule tasks
      ++ (if 0 <? Js.len periodHistory then
            [ plain Insight.info "Periodi speciali"
                (Js.template [Js.showZ (Js.len periodHistory);
                              " task completati durante periodi speciali (esclusi dalle statistiche normali)"])
                1 ]
          else []) in
    let periodPatterns :=
      flat_map (categoryPatterns tasks periodCategories) (Obj.entries periodBreakdown) in
    let allPatterns :=
      timePatterns ++ durationPatterns ++ frequencyPatterns ++ sequencePatterns
      ++ periodPatterns in
    let (allPatterns, db) := saveAll env 0 allPatterns db in
    let insights :=
      Js.sort (fun a b => Insight.priority b - Insight.priority a)%Q insights in
    ({| Result.insights := Js.slice0 10 insights;
        Result.patterns := allPatterns |},
     db).

(** *** Routine suggestions *)

(** [a === b] on numbers: [NaN] equals nothing. *)
Definition sameNumber (a b : option Z) : bool :=
  match a, b with
  | Some a, Some b => a =? b
  | _, _ => false
  end.

(** [p.averageTime] of a time pattern. *)
Definition averageTimeOf (p : Pattern.t) : string :=
  match Pattern.body p with
  | Pattern.Time i | Pattern.TimeDay _ i => TimeP.averageTime i
  | _ => ""
  end.

Definition isDayTimePattern (taskId : string) (dayOfWeek : option Z) (p : Pattern.t)
  : bool :=
  match Pattern.body p with
  | Pattern.TimeDay d i => String.eqb (TimeP.taskId i) taskId && sameNumber d dayOfWeek
  | _ => false
  end.

Definition isGeneralTimePattern (taskId : string) (p : Pattern.t) : bool :=
  match Pattern.body p with
  | Pattern.Time i => String.eqb (TimeP.taskId i) taskId
  | _ => false
  end.

(** The body of the loop over the frequency patterns. *)
Definition routineSuggestion (dayOfWeek : option Z) (tasks : list Task.t)
           (timePatterns : list Pattern.t) (freqPattern : Pattern.t)
  : list Suggestion.t :=
  match Pattern.body freqPattern with
  | Pattern.Frequency f =>
      match Js.find (fun d => sameNumber (DayPref.day d) dayOfWeek)
                    (FrequencyP.preferredDays f) with
      | None => []
      | Some dayPref =>
          if Js.Qltb (DayPref.percentage dayPref) 20 then []
          else
            match findTask tasks (FrequencyP.taskId f) with
            | None => []
            | Some task =>
                let dayTimePattern :=
                  Js.find (isDayTimePattern (FrequencyP.taskId f) dayOfWeek) timePatterns in
                let suggestedTime :=
                  match dayTimePattern with
                  | Some p => averageTimeOf p
                  | None => ""
                  end in
                let suggestedTime :=
                  if negb (Js.truthy suggestedTime) then
                    match Js.find (isGeneralTimePattern (FrequencyP.taskId f))
                                  timePatterns with
                    | Some generalTimePattern => averageTimeOf generalTimePattern
                    | None => suggestedTime
                    end
                  else suggestedTime in
                if Js.truthy suggestedTime then
                  [ {| Suggestion.taskId := Task.id task;
                       Suggestion.taskName := Task.name task;
                       Suggestion.category := Task.category task;
                       Suggestion.suggestedTime := suggestedTime;
                       Suggestion.duration := Task.defaultDuration task;
                       Suggestion.confidence :=
                         Pattern.confidence freqPattern
                         * (match dayTimePattern with
                            | Some _ => 12 # 10
                            | None => 1
                            end);
                       Suggestion.reason :=
                         match dayTimePattern with
                         | Some _ =>
                             Js.template ["Di solito lo fai il ";
                                          shown (getDayName dayOfWeek); " alle ";
                                          suggestedTime]
                         | None => Js.template ["Orario abituale: "; suggestedTime]
                         end |} ]
                else []
            end
      end
  | _ => []
  end.

Definition byTimeAndConfidence (a b : Suggestion.t) : Q :=
  let timeComp :=
    Js.localeCompare (Suggestion.suggestedTime a) (Suggestion.suggestedTime b) in
  if negb (Qeq_bool timeComp 0) then timeComp
  else (Suggestion.confidence b - Suggestion.confidence a)%Q.

(** [dayOrDate] is a weekday number or a date, here the text of its day. *)
Definition generateRoutineSuggestion (db : DB.t) (dayOrDate : Z + string)
           (tasks : option (list Task.t)) : list Suggestion.t :=
  let patterns := DB.getAllPatterns db in
  let tasks := match tasks with Some tasks => tasks | None => DB.getAllTasks db end in
  let dayOfWeek :=
    match dayOrDate with
    | inl day => Some day
    | inr date => Dates.getDay date
    end in
  let frequencyPatterns :=
    filter (fun p => PatternType_eqb (Pattern.type p) frequency) patterns in
  let timePatterns :=
    filter (fun p => PatternType_eqb (Pattern.type p) time
                     || PatternType_eqb (Pattern.type p) time_day) patterns in
  let suggestions :=
    flat_map (routineSuggestion dayOfWeek tasks timePatterns) frequencyPatterns in
  Js.sort byTimeAndConfidence suggestions.

End Algorithm.

(* ================================================================== *)
(** ** Definitions for the statements *)
(* ================================================================== *)

(** The value a key ends with after a run of updates: [touch a] names the
    key an element updates, with the default and the update. *)
Module Replay.

Section Fold.
Context {A V : Type} (touch : A -> option (string * V * (V -> V))).

Definition step (o : Obj.t V) (a : A) : Obj.t V :=
  match touch a with
  | Some (k, d, f) => Obj.update k d f o
  | None => o
  end.

Definition replay (k : string) (l : list A) (cur : option V) : option V :=
  fold_left
    (fun cur a =>
       match touch a with
       | Some (k', d, f) =>
           if String.eqb k k'
           then Some (f (match cur with Some v => v | None => d end))
           else cur
       | None => cur
       end) l cur.
End Fold.

(** Grouping: the elements pushed under a key, in order. *)
Section Collect.
Context {A V : Type} (place : A -> option (string * V)).

Definition pushed (k : string) (l : list A) : list V :=
  flat_map (fun a => match place a with
                     | Some (k', v) => if String.eqb k k' then [v] else []
                     | None => []
                     end) l.

Definition collect (l : list A) : Obj.t (list V) :=
  fold_left (fun o a => match place a with
                        | Some (k, v) => Obj.push k v o
                        | None => o
                        end) l [].

Definition pushTouch (a : A) : option (string * list V * (list V -> list V)) :=
  match place a with
  | Some (k, v) => Some (k, [], fun l => l ++ [v])
  | None => None
  end.
End Collect.

End Replay.

(** [a] may stand in front of [b] under the comparator [cmp]. *)
Definition before {A : Type} (cmp : A -> A -> Q) (a b : A) : Prop := (cmp a b <= 0)%Q.

Import Algorithm.

Module Examples.
Definition tasks : list Task.t :=
  [ Task.mk "run" "Corsa" "health" 30; Task.mk "mail" "Email" "work" 45 ].

Definition done (taskId date startTime endTime : string) (planned actual : Z)
  : Entry.t :=
  Entry.mk taskId date startTime endTime planned (Some actual) completed.

Definition env (stamp : string) : DB.Env :=
  DB.mkEnv (fun _ => stamp) (fun _ => "lq1x2y3z4").

Definition store (history : list Entry.t) : DB.t :=
  DB.mk tasks history [] [] None None.

Definition week : list Entry.t :=
  [ done "run" "2024-01-15" "07:00" "07:30" 30 30;
    done "run" "2024-01-16" "07:10" "07:40" 30 30;
    done "run" "2024-01-17" "07:20" "07:50" 30 30;
    done "mail" "2024-01-17" "09:00" "09:45" 45 45;
    done "mail" "2024-01-18" "09:00" "09:45" 45 45 ].
End Examples.

(** A well-formed clock string: two digits, a colon, two digits, with the
    hour below 24 and the minute below 60. *)
Definition wellFormedClock (s : string) : bool :=
  (String.length s =? 5)%nat
  && String.eqb (substring 2 1 s) ":"
  && match Js.Number (substring 0 2 s), Js.Number (substring 3 2 s) with
     | Some h, Some m => (h <? 24) && (m <? 60)
     | _, _ => false
     end.

(** The constant [k] of [Math.min(sampleSize / k, 1)] for each type. *)
Definition confidenceConstant (ty : PatternType) : Z :=
  match ty with
  | time => 10
  | time_day => 5
  | duration => 10
  | frequency => 15
  | sequence => 10
  end.

Definition confident (p : Pattern.t) : Prop :=
  Pattern.confidence p
  = Qmin (inject_Z (Pattern.sampleSize p)
          / inject_Z (confidenceConstant (Pattern.type p))) 1
  /\ 0 <= Pattern.sampleSize p.

(** The update an entry makes to [taskFrequencyMap]. *)
Definition frequencyTouch (entry : Entry.t)
  : option (string * Freq.t * (Freq.t -> Freq.t)) :=
  if negb (Status_eqb (Entry.status entry) completed) then None
  else Some (Entry.taskId entry,
             {| Freq.count := 0; Freq.days := []; Freq.weekdays := [] |},
             fun f =>
               {| Freq.count := Freq.count f + 1;
                  Freq.days := setAdd (Entry.date entry) (Freq.days f);
                  Freq.weekdays :=
                    Obj.update (Js.showNum (Dates.getDay (Entry.date entry))) 0
                               (fun c => c + 1) (Freq.weekdays f) |}).

(** The completed entries of a task, in history order. *)
Definition completedOf (history : list Entry.t) (taskId : string) : list Entry.t :=
  filter (fun e => Status_eqb (Entry.status e) completed
                   && String.eqb (Entry.taskId e) taskId) history.

(** The sample [analyzeTimePatterns] keeps of an entry, and the samples
    of a task: those of its completed entries, in history order. *)
Definition sampleOf (entry : Entry.t) : Sample.t :=
  {| Sample.time := Entry.startTime entry;
     Sample.dayOfWeek := Dates.getDay (Entry.date entry) |}.

Definition samplesOf (history : list Entry.t) (taskId : string) : list Sample.t :=
  map sampleOf (completedOf history taskId).

Definition minutesOf (samples : list Sample.t) : list (option Z) :=
  map (fun t => timeToMinutes (Sample.time t)) samples.

(** The population standard deviation of [values] is below [bound]. *)
Definition deviationBelow (values : list (option Z)) (bound : Q) : bool :=
  match standardDeviation values with
  | Some sd => Root_ltb sd bound
  | None => false
  end.

(** Weekdays as the analyzer keys them: two invalid days are the same key. *)
Definition sameDay (a b : option Z) : bool :=
  match a, b with
  | Some a, Some b => a =? b
  | None, None => true
  | _, _ => false
  end.

Definition onDay (day : option Z) (samples : list Sample.t) : list Sample.t :=
  filter (fun t => sameDay (Sample.dayOfWeek t) day) samples.

(** What [getDay] can return. *)
Definition weekday (day : option Z) : Prop :=
  match day with
  | Some d => 0 <= d < 7
  | None => True
  end.

(** How an entry lands in [taskTimeMap]. *)
Definition timePlace (entry : Entry.t) : option (string * Sample.t) :=
  if negb (Status_eqb (Entry.status entry) completed) then None
  else Some (Entry.taskId entry, sampleOf entry).

(** The transitions the loop of [analyzeSequencePatterns] visits: the
    pairs of neighbours of the sorted history that share their date. *)
Fixpoint pairsFrom (lastEntry : option Entry.t) (l : list Entry.t)
  : list (Entry.t * Entry.t) :=
  match l with
  | [] => []
  | entry :: r =>
      (match lastEntry with
       | Some lastEntry =>
           if String.eqb (Entry.date lastEntry) (Entry.date entry)
           then [(lastEntry, entry)] else []
       | None => []
       end) ++ pairsFrom (Some entry) r
  end.

Definition transitions (history : list Entry.t) : list (Entry.t * Entry.t) :=
  pairsFrom None (sortedHistory history).

Definition keyOf (ab : Entry.t * Entry.t) : string :=
  Js.template [Entry.taskId (fst ab); "_"; Entry.taskId (snd ab)].

(** The valid gap of a transition, if it has one: both clock times known,
    and 0 <= gap < 240 minutes. *)
Definition gapsOf (ab : Entry.t * Entry.t) : list Z :=
  let (lastEntry, entry) := ab in
  if Js.truthy (Entry.endTime lastEntry) && Js.truthy (Entry.startTime entry) then
    match timeToMinutes (Entry.startTime entry),
          timeToMinutes (Entry.endTime lastEntry) with
    | Some s, Some e =>
        let gap := s - e in
        if (0 <=? gap) && (gap <? 240) then [gap] else []
    | _, _ => []
    end
  else [].

(** The transitions observed under a key, and the gaps collected for it. *)
Definition observed (history : list Entry.t) (key : string)
  : list (Entry.t * Entry.t) :=
  filter (fun ab => String.eqb key (keyOf ab)) (transitions history).

Definition collectedGaps (history : list Entry.t) (key : string) : list Z :=
  flat_map gapsOf (observed history key).

Definition sequenceTouch (ab : Entry.t * Entry.t)
  : option (string * Seq.t * (Seq.t -> Seq.t)) :=
  Some (keyOf ab,
        {| Seq.fromTaskId := Entry.taskId (fst ab);
           Seq.toTaskId := Entry.taskId (snd ab);
           Seq.count := 0;
           Seq.avgGap := [] |},
        fun s => {| Seq.fromTaskId := Seq.fromTaskId s;
                    Seq.toTaskId := Seq.toTaskId s;
                    Seq.count := Seq.count s + 1;
                    Seq.avgGap := Seq.avgGap s ++ gapsOf ab |}).

(** The record a key holds after a run of transitions. *)
Definition tally (key : string) (l : list (Entry.t * Entry.t)) (s : Seq.t) : Seq.t :=
  let seen := filter (fun ab => String.eqb key (keyOf ab)) l in
  {| Seq.fromTaskId := Seq.fromTaskId s;
     Seq.toTaskId := Seq.toTaskId s;
     Seq.count := Seq.count s + Js.len seen;
     Seq.avgGap := Seq.avgGap s ++ flat_map gapsOf seen |}.

(** A transition qualifies for a pattern when it was counted at least 3
    times and both its tasks are in the catalog. *)
Definition inCatalog (tasks : list Task.t) (taskId : string) : bool :=
  match findTask tasks taskId with Some _ => true | None => false end.

Definition qualifies (tasks : list Task.t) (kv : string * Seq.t) : bool :=
  (3 <=? Seq.count (snd kv))
  && inCatalog tasks (Seq.fromTaskId (snd kv))
  && inCatalog tasks (Seq.toTaskId (snd kv)).

Definition qualifying (history : list Entry.t) (tasks : list Task.t)
  : list (string * Seq.t) :=
  filter (qualifies tasks) (Obj.entries (sequenceMap history)).

(** A history with [n] distinct transitions, each observed on three days:
    on day [i + 1] of month [j + 1], task [a_i] is followed by task [b_i]. *)
Definition pairOfDay (i j : nat) : list Entry.t :=
  let date := Js.template ["2024-"; Js.padStart2 (Js.showZ (Z.of_nat (1 + j)));
                           "-"; Js.padStart2 (Js.showZ (Z.of_nat (1 + i)))] in
  [ Examples.done (Js.template ["a"; Js.showZ (Z.of_nat i)]) date "08:00" "08:30" 30 30;
    Examples.done (Js.template ["b"; Js.showZ (Z.of_nat i)]) date "08:45" "09:15" 30 30 ].

Definition distinctTransitions (n : nat) : list Entry.t :=
  flat_map (fun i => flat_map (pairOfDay i) (seq 0 3)) (seq 0 n).

Definition pairTasks (n : nat) : list Task.t :=
  flat_map (fun i => [ Task.mk (Js.template ["a"; Js.showZ (Z.of_nat i)]) "A" "work" 30;
                       Task.mk (Js.template ["b"; Js.showZ (Z.of_nat i)]) "B" "work" 30 ])
           (seq 0 n).

(** The order [byTimeAndConfidence] sorts by: earlier suggested time first,
    and among equal times the higher confidence first. *)
Definition timeThenConfidence (a b : Suggestion.t) : Prop :=
  String.compare (Suggestion.suggestedTime a) (Suggestion.suggestedTime b) = Lt
  \/ (Suggestion.suggestedTime a = Suggestion.suggestedTime b
      /\ (Suggestion.confidence b <= Suggestion.confidence a)%Q).

(** The frequency pattern [f] has a preferred-day entry for [day] with a
    share of at least 20 percent. *)
Definition typicalOn (f : FrequencyP.t) (day : option Z) : Prop :=
  exists d,
    Js.find (fun d => sameNumber (DayPref.day d) day) (FrequencyP.preferredDays f) = Some d
    /\ (20 <= DayPref.percentage d)%Q.

(** The first day-specific, and the first general, time pattern of a task. *)
Definition dayTimeFor (patterns : list Pattern.t) (taskId : string) (day : option Z)
  : option Pattern.t :=
  List.find (isDayTimePattern taskId day) patterns.

Definition generalTimeFor (patterns : list Pattern.t) (taskId : string)
  : option Pattern.t :=
  List.find (isGeneralTimePattern taskId) patterns.

(** Every stored time pattern carries an average time, as the ones
    [analyze] saves do. *)
Definition storedTimes (patterns : list Pattern.t) : Prop :=
  forall p, In p patterns ->
            Pattern.type p = time \/ Pattern.type p = time_day ->
            averageTimeOf p <> "".

Definition isTimePattern (p : Pattern.t) : bool :=
  PatternType_eqb (Pattern.type p) time || PatternType_eqb (Pattern.type p) time_day.

(** The time and the confidence the loop body gives a suggestion. *)
Definition resolved (patterns : list Pattern.t) (fp : Pattern.t) (f : FrequencyP.t)
           (day : option Z) (s : Suggestion.t) : Prop :=
  match dayTimeFor patterns (FrequencyP.taskId f) day with
  | Some dayTimePattern =>
      Suggestion.suggestedTime s = averageTimeOf dayTimePattern
      /\ Suggestion.confidence s = (Pattern.confidence fp * (12 # 10))%Q
  | None =>
      exists generalTimePattern,
        generalTimeFor patterns (FrequencyP.taskId f) = Some generalTimePattern
        /\ Suggestion.suggestedTime s = averageTimeOf generalTimePattern
        /\ Suggestion.confidence s = (Pattern.confidence fp * 1)%Q
  end.

(** A pattern without the stamp of [DB.savePattern]. *)
Definition unstamped (p : Pattern.t) : Pattern.t :=
  {| Pattern.id := Pattern.id p;
     Pattern.body := Pattern.body p;
     Pattern.sampleSize := Pattern.sampleSize p;
     Pattern.confidence := Pattern.confidence p;
     Pattern.periodCategory := Pattern.periodCategory p;
     Pattern.periodCategoryName := Pattern.periodCategoryName p;
     Pattern.updatedAt := None |}.

(** The store lists its patterns in key order, one under each key. *)
Definition keyOrdered (store : list Pattern.t) : Prop :=
  StronglySorted
    (fun a b => String.compare (Pattern.id a) (Pattern.id b) = Lt) store.

(** What [analyze] reads besides the stored patterns. *)
Definition sameInputs (a b : DB.t) : Prop :=
  DB.tasks a = DB.tasks b
  /\ DB.history a = DB.history b
  /\ DB.schedule a = DB.schedule b
  /\ DB.specialPeriods a = DB.specialPeriods b
  /\ DB.periodCategories a = DB.periodCategories b.

(** The patterns [analyze] computes past its gate, before they are saved. *)
Definition minedPatterns (db : DB.t) : list Pattern.t :=
  let tasks := DB.tasks db in
  let specialPeriods := match DB.specialPeriods db with Some l => l | None => [] end in
  let periodCategories :=
    match DB.periodCategories db with Some l => l | None => [] end in
  let sep := separateHistoryByPeriods (DB.history db) specialPeriods periodCategories in
  let normalHistory := Separated.normalHistory sep in
  analyzeTimePatterns normalHistory tasks
  ++ analyzeDurationPatterns normalHistory tasks
  ++ analyzeFrequencyPatterns normalHistory tasks
  ++ analyzeSequencePatterns normalHistory tasks
  ++ flat_map (categoryPatterns tasks periodCategories)
              (Obj.entries (Separated.periodBreakdown sep)).

(* ================================================================== *)
(** ** Facts about the primitives *)
(* ================================================================== *)

Module ObjFacts.
Import Obj Replay.

Section Facts.
Context {V : Type}.
Implicit Types (o : Obj.t V) (k : string) (v : V).

Lemma get_set k k' v o :
  get k' (set k v o) = if String.eqb k' k then Some v else get k' o.
Proof.
  induction o as [|[k0 v0] r IH]; simpl.
  - destruct (String.eqb k' k); reflexivity.
  - destruct (String.eqb k k0) eqn:E; simpl.
    + apply String.eqb_eq in E; subst k0.
      destruct (String.eqb k' k); reflexivity.
    + destruct (String.eqb k' k0) eqn:E'.
      * apply String.eqb_eq in E'; subst k0.
        rewrite String.eqb_sym, E. reflexivity.
      * exact IH.
Qed.

Lemma get_update k k' (d : V) f o :
  get k' (update k d f o)
  = if String.eqb k' k
    then Some (f (match get k o with Some v => v | None => d end))
    else get k' o.
Proof.
  unfold update. destruct (get k o); apply get_set.
Qed.

Lemma get_In k v o : get k o = Some v -> In (k, v) o.
Proof.
  induction o as [|[k0 v0] r IH]; simpl; [discriminate|].
  destruct (String.eqb k k0) eqn:E.
  - apply String.eqb_eq in E; subst. intros [= ->]. now left.
  - intros H. right. auto.
Qed.

Lemma get_None_keys k o : get k o = None -> ~ In k (map fst o).
Proof.
  induction o as [|[k0 v0] r IH]; simpl; [tauto|].
  destruct (String.eqb k k0) eqn:E; [discriminate|].
  apply String.eqb_neq in E. intros H [H1|H1]; [congruence | now apply IH].
Qed.

Lemma In_get k v o : NoDup (map fst o) -> In (k, v) o -> get k o = Some v.
Proof.
  induction o as [|[k0 v0] r IH]; simpl; [tauto|].
  intros ND [H|H].
  - injection H as -> ->. now rewrite String.eqb_refl.
  - inversion ND as [|? ? Hn ND']; subst.
    destruct (String.eqb k k0) eqn:E.
    + apply String.eqb_eq in E; subst k0.
      exfalso. apply Hn. change k with (fst (k, v)). now apply in_map.
    + auto.
Qed.

Lemma keys_set k v o :
  map fst (set k v o)
  = match get k o with Some _ => map fst o | None => map fst o ++ [k] end.
Proof.
  induction o as [|[k0 v0] r IH]; simpl; [reflexivity|].
  destruct (String.eqb k k0) eqn:E; simpl.
  - apply String.eqb_eq in E. now subst.
  - rewrite IH. now destruct (get k r).
Qed.

Lemma NoDup_set k v o : NoDup (map fst o) -> NoDup (map fst (set k v o)).
Proof.
  intros ND. rewrite keys_set. destruct (get k o) eqn:E; [assumption|].
  apply get_None_keys in E.
  apply NoDup_rev in ND. rewrite <- (rev_involutive (_ ++ _)).
  apply NoDup_rev. rewrite rev_app_distr. simpl. constructor; [|assumption].
  now rewrite <- in_rev.
Qed.

Lemma NoDup_update k (d : V) f o :
  NoDup (map fst o) -> NoDup (map fst (update k d f o)).
Proof. unfold update. destruct (get k o); apply NoDup_set. Qed.

(** Folding updates into an object keeps its keys distinct. *)
Lemma NoDup_fold {A : Type} (step : Obj.t V -> A -> Obj.t V) (l : list A) :
  (forall o a, NoDup (map fst o) -> NoDup (map fst (step o a))) ->
  forall o, NoDup (map fst o) -> NoDup (map fst (fold_left step l o)).
Proof.
  intros Hs. induction l as [|a l IH]; simpl; auto.
Qed.

Lemma insertIdx_perm (x : N * (string * V)) l : Permutation (insertIdx x l) (x :: l).
Proof.
  induction l as [|y r IH]; simpl; [reflexivity|].
  destruct (fst x <=? fst y)%N; [reflexivity|].
  rewrite IH. apply perm_swap.
Qed.

Lemma sortIdx_perm (l : list (N * (string * V))) : Permutation (sortIdx l) l.
Proof.
  induction l as [|x r IH]; simpl; [reflexivity|].
  rewrite insertIdx_perm. now constructor.
Qed.

Lemma entries_perm o : Permutation (entries o) o.
Proof.
  unfold entries. rewrite sortIdx_perm. unfold indexed, named.
  induction o as [|[k v] r IH]; simpl; [reflexivity|].
  destruct (arrayIndex k); simpl.
  - now constructor.
  - rewrite <- Permutation_middle. now constructor.
Qed.

Lemma entries_In kv o : In kv (entries o) <-> In kv o.
Proof.
  split; apply Permutation_in; [|symmetry]; apply entries_perm.
Qed.

Lemma entries_length o : List.length (entries o) = List.length o.
Proof. apply Permutation_length, entries_perm. Qed.

Lemma entries_get k v o :
  NoDup (map fst o) -> (In (k, v) (entries o) <-> get k o = Some v).
Proof.
  intros ND. rewrite entries_In. split; [now apply In_get | apply get_In].
Qed.
End Facts.

Section Fold.
Context {A V : Type} (touch : A -> option (string * V * (V -> V))).

Lemma get_fold k l : forall o,
  get k (fold_left (step touch) l o) = replay touch k l (get k o).
Proof.
  induction l as [|a l IH]; intros o; simpl; [reflexivity|].
  rewrite IH. f_equal. unfold step.
  destruct (touch a) as [[[k' d] f]|]; [|reflexivity].
  rewrite get_update. destruct (String.eqb k k') eqn:E; [|reflexivity].
  apply String.eqb_eq in E. now subst.
Qed.

Lemma NoDup_steps l o :
  NoDup (map fst o) -> NoDup (map fst (fold_left (step touch) l o)).
Proof.
  apply NoDup_fold. intros o' a ND. unfold step.
  destruct (touch a) as [[[k d] f]|]; [now apply NoDup_update | assumption].
Qed.

Lemma entries_fold k v l :
  In (k, v) (entries (fold_left (step touch) l [])) <-> replay touch k l None = Some v.
Proof.
  rewrite entries_get by (apply NoDup_steps; constructor).
  now rewrite get_fold.
Qed.
End Fold.

Section Collect.
Context {A V : Type} (place : A -> option (string * V)).

Lemma collect_step l o :
  fold_left (fun o a => match place a with
                        | Some (k, v) => push k v o
                        | None => o
                        end) l o
  = fold_left (step (pushTouch place)) l o.
Proof.
  revert o. induction l as [|a l IH]; intros o; simpl; [reflexivity|].
  rewrite IH. f_equal. unfold step, pushTouch, push.
  now destruct (place a) as [[k v]|].
Qed.

Lemma replay_some k l : forall vs,
  replay (pushTouch place) k l (Some vs) = Some (vs ++ pushed place k l).
Proof.
  induction l as [|a l IH]; intros vs; simpl.
  - now rewrite app_nil_r.
  - unfold pushTouch at 2. destruct (place a) as [[k' v]|]; simpl; [|apply IH].
    destruct (String.eqb k k'); simpl; [|apply IH].
    rewrite IH. now rewrite <- app_assoc.
Qed.

Lemma replay_pushed k l :
  replay (pushTouch place) k l None
  = match pushed place k l with [] => None | vs => Some vs end.
Proof.
  induction l as [|a l IH]; simpl; [reflexivity|].
  unfold pushTouch at 2. destruct (place a) as [[k' v]|]; simpl; [|apply IH].
  destruct (String.eqb k k'); simpl; [|apply IH].
  apply replay_some.
Qed.

Lemma collect_spec k vs l :
  In (k, vs) (entries (collect place l)) <-> vs = pushed place k l /\ vs <> [].
Proof.
  unfold collect. rewrite collect_step, entries_fold, replay_pushed.
  destruct (pushed place k l) eqn:E; simpl.
  - split; [discriminate | intros [-> H]; now elim H].
  - split; [intros [= <-]; split; [reflexivity|discriminate] | intros [-> _]; reflexivity].
Qed.
End Collect.

End ObjFacts.

Module SortFacts.

Section Facts.
Context {A : Type} (cmp : A -> A -> Q).

Local Abbreviation before := (before cmp).

Lemma insert_perm x l : Permutation (Js.insert cmp x l) (x :: l).
Proof.
  induction l as [|y r IH]; simpl; [reflexivity|].
  destruct (Qle_bool (cmp x y) 0); [reflexivity|].
  rewrite IH. apply perm_swap.
Qed.

Lemma sort_perm l : Permutation (Js.sort cmp l) l.
Proof.
  induction l as [|x r IH]; simpl; [reflexivity|].
  rewrite insert_perm. now constructor.
Qed.

Lemma sort_length l : List.length (Js.sort cmp l) = List.length l.
Proof. apply Permutation_length, sort_perm. Qed.

Lemma sort_In x l : In x (Js.sort cmp l) <-> In x l.
Proof. split; apply Permutation_in; [|symmetry]; apply sort_perm. Qed.

Hypothesis total : forall a b, before a b \/ before b a.

Lemma insert_sorted x l : Sorted before l -> Sorted before (Js.insert cmp x l).
Proof.
  induction l as [|y r IH]; simpl; intros S.
  - repeat constructor.
  - destruct (Qle_bool (cmp x y) 0) eqn:E.
    + apply Qle_bool_iff in E. constructor; [assumption|]. now constructor.
    + assert (Hyx : before y x).
      { destruct (total x y) as [H|H]; [|exact H].
        apply Qle_bool_iff in H. unfold before in *. congruence. }
      inversion S as [|? ? S' Hd]; subst.
      constructor; [now apply IH|].
      destruct r as [|z r']; simpl.
      * now constructor.
      * destruct (Qle_bool (cmp x z) 0); constructor; [assumption|].
        now inversion Hd.
Qed.

Lemma sort_sorted l : Sorted before (Js.sort cmp l).
Proof.
  induction l as [|x r IH]; simpl; [constructor|]. now apply insert_sorted.
Qed.

Hypothesis trans : forall a b c, before a b -> before b c -> before a c.

Lemma sort_strongly_sorted l : StronglySorted before (Js.sort cmp l).
Proof. apply Sorted_StronglySorted; [exact trans | apply sort_sorted]. Qed.
End Facts.

Lemma In_firstn {A : Type} (x : A) n l : In x (firstn n l) -> In x l.
Proof.
  revert n. induction l as [|a l IH]; intros [|n]; simpl; try tauto.
  intros [H|H]; [now left | right; eauto].
Qed.

Lemma firstn_strongly_sorted {A : Type} (R : A -> A -> Prop) n l :
  StronglySorted R l -> StronglySorted R (firstn n l).
Proof.
  intros S. revert n. induction S as [|a l S IH Hall]; intros [|n]; simpl;
    try constructor.
  - apply IH.
  - apply Forall_forall. intros x Hx. apply In_firstn in Hx.
    rewrite Forall_forall in Hall. now apply Hall.
Qed.

End SortFacts.

(* ================================================================== *)
(** ** The gate of [analyze] *)
(* ================================================================== *)

(** C4. With fewer than five history entries [analyze] returns exactly one
    insight, of type [info], together with the persisted patterns as they
    were, and leaves the store as it found it: nothing is saved. *)
Theorem analyze_gate (env : DB.Env) (db : DB.t) :
  Js.len (DB.history db) < MIN_HISTORY_FOR_PATTERNS ->
  exists i,
    Insight.type i = Insight.info /\
    analyze env db
    = ({| Result.insights := [i]; Result.patterns := DB.patterns db |}, db).
Proof.
  intros H. unfold analyze.
  apply Z.ltb_lt in H. unfold DB.getAllHistory. rewrite H.
  eexists. split; [|reflexivity]. reflexivity.
Qed.

Lemma analyze_gate_witness :
  let db := DB.mk Examples.tasks
              [ Examples.done "run" "2024-01-15" "07:00" "07:30" 30 30 ]
              []
              [ Pattern.fresh "frequency_run"
                  (Pattern.Frequency (FrequencyP.mk "run" "Corsa" 9 9 (7 # 2) []))
                  9 (9 # 15) ]
              None None in
  Js.len (DB.history db) < MIN_HISTORY_FOR_PATTERNS /\
  exists i,
    Insight.type i = Insight.info /\
    analyze (Examples.env "2024-01-15T08:00:00.000Z") db
    = ({| Result.insights := [i]; Result.patterns := DB.patterns db |}, db).
Proof.
  intros db.
  assert (H : Js.len (DB.history db) < MIN_HISTORY_FOR_PATTERNS) by reflexivity.
  split; [exact H | exact (analyze_gate _ db H)].
Defined.

(* ================================================================== *)
(** ** Duration insights *)
(* ================================================================== *)

(** The claim that an overestimate insight is informational fails: five
    completions planned at 60 minutes and done in 40 give a pattern with
    difference -20 and -33 percent, and the insight drawn from it carries
    [actionable: true]. *)
Lemma overestimate_is_actionable :
  let history :=
    [ Examples.done "run" "2024-01-15" "07:00" "07:40" 60 40;
      Examples.done "run" "2024-01-16" "07:00" "07:40" 60 40;
      Examples.done "run" "2024-01-17" "07:00" "07:40" 60 40;
      Examples.done "run" "2024-01-18" "07:00" "07:40" 60 40;
      Examples.done "run" "2024-01-19" "07:00" "07:40" 60 40 ] in
  let patterns := analyzeDurationPatterns history Examples.tasks in
  map (fun p => (Pattern.sampleSize p, Pattern.body p)) patterns
  = [ (5, Pattern.Duration (DurationP.mk "run" "Corsa" 40 60 (-20) (Fin (-33)))) ]
  /\ map (fun i => (Insight.title i, Insight.actionable i, Insight.action i))
         (generateDurationInsights patterns Examples.tasks)
     = [ ("Durata sovrastimata", Some true, None) ]
  /\ ~ (forall i, In i (generateDurationInsights patterns Examples.tasks) ->
                  Insight.actionable i = Some false).
Proof.
  intros history patterns.
  split; [vm_compute; reflexivity|].
  split; [vm_compute; reflexivity|].
  intros H.
  assert (E : exists i, generateDurationInsights patterns Examples.tasks = [i]
                        /\ Insight.actionable i = Some true)
    by (eexists; split; vm_compute; reflexivity).
  destruct E as (i & E & A).
  specialize (H i). rewrite E in H. specialize (H (or_introl eq_refl)).
  congruence.
Qed.

(** C1 (as the code has it). A duration pattern whose percent difference
    exceeds 20 in magnitude, with at least 5 samples and an average actual
    duration more than 15 minutes under the planned one, yields exactly one
    insight, the overestimate one; its priority is min(|percentDifference|/15, 6),
    it carries [actionable: true] and no action payload. *)
Theorem overestimate_insight (patterns : list Pattern.t) (tasks : list Task.t)
        (p : Pattern.t) (i : DurationP.t) (pd : Z) :
  In p patterns ->
  Pattern.body p = Pattern.Duration i ->
  DurationP.percentDifference i = Fin pd ->
  20 < Z.abs pd ->
  5 <= Pattern.sampleSize p ->
  DurationP.difference i < -15 ->
  exists ins,
    durationInsights p = [ins] /\
    In ins (generateDurationInsights patterns tasks) /\
    Insight.type ins = Insight.optimization /\
    Insight.title ins = "Durata sovrastimata" /\
    Insight.taskId ins = Some (DurationP.taskId i) /\
    Insight.priority ins = Qmin (inject_Z (Z.abs pd) / 15) 6 /\
    Insight.actionable ins = Some true /\
    Insight.action ins = None.
Proof.
  intros Hin Hb Hpd Habs Hn Hd.
  assert (E : exists ins, durationInsights p = [ins] /\
                Insight.type ins = Insight.optimization /\
                Insight.title ins = "Durata sovrastimata" /\
                Insight.taskId ins = Some (DurationP.taskId i) /\
                Insight.priority ins = Qmin (inject_Z (Z.abs pd) / 15) 6 /\
                Insight.actionable ins = Some true /\
                Insight.action ins = None).
  { unfold durationInsights. rewrite Hb, Hpd. simpl absExceeds20.
    apply Z.ltb_lt in Habs. apply Z.leb_le in Hn. rewrite Habs, Hn. simpl andb.
    assert (H0 : (0 <? DurationP.difference i) = false) by (apply Z.ltb_ge; lia).
    apply Z.ltb_lt in Hd. rewrite H0, Hd.
    eexists. split; [reflexivity|]. repeat split. }
  destruct E as (ins & E & R). exists ins. split; [exact E|]. split; [|exact R].
  unfold generateDurationInsights. apply in_flat_map. exists p.
  split; [exact Hin|]. rewrite E. now left.
Qed.

Lemma overestimate_insight_witness :
  let i := DurationP.mk "run" "Corsa" 40 60 (-20) (Fin (-33)) in
  let p := Pattern.fresh "duration_run" (Pattern.Duration i) 5 (5 # 10) in
  (In p [p] /\ Pattern.body p = Pattern.Duration i /\
   DurationP.percentDifference i = Fin (-33) /\ 20 < Z.abs (-33) /\
   5 <= Pattern.sampleSize p /\ DurationP.difference i < -15) /\
  exists ins,
    durationInsights p = [ins] /\
    In ins (generateDurationInsights [p] Examples.tasks) /\
    Insight.type ins = Insight.optimization /\
    Insight.title ins = "Durata sovrastimata" /\
    Insight.taskId ins = Some (DurationP.taskId i) /\
    Insight.priority ins = Qmin (inject_Z (Z.abs (-33)) / 15) 6 /\
    Insight.actionable ins = Some true /\
    Insight.action ins = None.
Proof.
  intros i p.
  assert (H1 : In p [p]) by (left; reflexivity).
  assert (H2 : Pattern.body p = Pattern.Duration i) by reflexivity.
  assert (H3 : DurationP.percentDifference i = Fin (-33)) by reflexivity.
  assert (H4 : 20 < Z.abs (-33)) by reflexivity.
  assert (H5 : 5 <= Pattern.sampleSize p) by (simpl; lia).
  assert (H6 : DurationP.difference i < -15) by reflexivity.
  split; [tauto|].
  exact (overestimate_insight [p] Examples.tasks p i (-33) H1 H2 H3 H4 H5 H6).
Defined.

(* ================================================================== *)
(** ** Clock strings *)
(* ================================================================== *)

(** C10 (what the code does). Three completions of one task at 08:59, 09:00
    and 09:00 have the mean start 539.67 minutes; [minutesToTime] rounds the
    remainder 59.67 up to 60 without carrying into the hour, and the
    [time] pattern that [analyzeTimePatterns] emits carries the average
    time 08:60, which is not a clock time. *)
Theorem averageTime_minute_sixty :
  let history :=
    [ Examples.done "run" "2024-01-15" "08:59" "09:30" 30 30;
      Examples.done "run" "2024-01-16" "09:00" "09:30" 30 30;
      Examples.done "run" "2024-01-17" "09:00" "09:30" 30 30 ] in
  minutesToTime (Some (1619 # 3)) = "08:60"
  /\ map (fun p => (Pattern.id p, Pattern.type p, averageTimeOf p))
         (analyzeTimePatterns history Examples.tasks)
     = [ ("time_run", time, "08:60") ]
  /\ wellFormedClock "08:60" = false
  /\ wellFormedClock "09:00" = true.
Proof.
  intros history. repeat split; vm_compute; reflexivity.
Qed.

(* ================================================================== *)
(** ** Confidence *)
(* ================================================================== *)

Lemma len_nonneg {A : Type} (l : list A) : 0 <= Js.len l.
Proof. unfold Js.len. lia. Qed.

Lemma len_cons {A : Type} (x : A) (l : list A) : Js.len (x :: l) = 1 + Js.len l.
Proof. unfold Js.len. simpl List.length. lia. Qed.

Lemma fold_left_ext {A B : Type} (f g : A -> B -> A) (l : list B) :
  (forall a b, f a b = g a b) -> forall a, fold_left f l a = fold_left g l a.
Proof.
  intros E. induction l as [|b l IH]; intros a; simpl; [reflexivity|].
  now rewrite E, IH.
Qed.

Lemma replay_invariant {A V : Type} (touch : A -> option (string * V * (V -> V)))
      (P : V -> Prop) (k : string) :
  (forall a k' d f, touch a = Some (k', d, f) -> P (f d) /\ forall v, P v -> P (f v)) ->
  forall l cur,
    (forall v, cur = Some v -> P v) ->
    forall v, Replay.replay touch k l cur = Some v -> P v.
Proof.
  intros Ht. induction l as [|a l IH]; intros cur Hc v; simpl.
  - apply Hc.
  - apply IH. intros w.
    destruct (touch a) as [[[k' d] f]|] eqn:E; [|apply Hc].
    destruct (String.eqb k k'); [|apply Hc].
    destruct (Ht _ _ _ _ E) as [Hd Hf].
    intros [= <-]. destruct cur as [u|]; [apply Hf; now apply Hc | exact Hd].
Qed.

Lemma taskFrequencyMap_steps history :
  taskFrequencyMap history = fold_left (Replay.step frequencyTouch) history [].
Proof.
  unfold taskFrequencyMap. apply fold_left_ext. intros m entry.
  unfold Replay.step, frequencyTouch.
  now destruct (negb (Status_eqb (Entry.status entry) completed)).
Qed.

Lemma frequency_count_positive history taskId freq :
  In (taskId, freq) (Obj.entries (taskFrequencyMap history)) -> 1 <= Freq.count freq.
Proof.
  rewrite taskFrequencyMap_steps, ObjFacts.entries_fold.
  apply (replay_invariant frequencyTouch (fun f => 1 <= Freq.count f)).
  - intros a k' d f. unfold frequencyTouch.
    destruct (negb (Status_eqb (Entry.status a) completed)); [discriminate|].
    intros [= <- <- <-]. simpl. split; [lia | intros v Hv; lia].
  - discriminate.
Qed.

Lemma time_patterns_confident history tasks p :
  In p (analyzeTimePatterns history tasks) ->
  confident p /\ (Pattern.type p = time \/ Pattern.type p = time_day).
Proof.
  unfold analyzeTimePatterns. rewrite in_flat_map. intros ([taskId times] & _ & H).
  unfold taskTimePatterns in H.
  destruct (Js.len times <? 3); [contradiction|].
  destruct (findTask tasks taskId) as [task|]; [|contradiction].
  apply in_app_or in H. destruct H as [H|H].
  - destruct (standardDeviation _) as [sd|]; [|contradiction].
    destruct (Root_ltb sd 60); [|contradiction].
    destruct H as [<-|[]]. split; [|now left].
    split; [reflexivity | apply len_nonneg].
  - apply in_flat_map in H. destruct H as ([day dayTimes] & _ & H).
    unfold dayPattern in H.
    destruct (2 <=? Js.len dayTimes); [|contradiction].
    destruct (standardDeviation _) as [sd|]; [|contradiction].
    destruct (Root_ltb sd 45); [|contradiction].
    destruct H as [<-|[]]. split; [|now right].
    split; [reflexivity | apply len_nonneg].
Qed.

Lemma duration_patterns_confident history tasks p :
  In p (analyzeDurationPatterns history tasks) -> confident p.
Proof.
  unfold analyzeDurationPatterns. rewrite in_flat_map.
  intros ([taskId durations] & _ & H). unfold taskDurationPatterns in H.
  destruct (Js.len durations <? 3); [contradiction|].
  destruct (findTask tasks taskId) as [task|]; [|contradiction].
  destruct H as [<-|[]]. split; [reflexivity | apply len_nonneg].
Qed.

Lemma frequency_patterns_confident history tasks p :
  In p (analyzeFrequencyPatterns history tasks) -> confident p.
Proof.
  unfold analyzeFrequencyPatterns.
  destruct (Js.len _ <? 2); [contradiction|].
  rewrite in_flat_map. intros ([taskId freq] & Hin & H).
  apply frequency_count_positive in Hin.
  unfold taskFrequencyPatterns in H.
  destruct (findTask tasks taskId) as [task|]; [|contradiction].
  destruct H as [<-|[]]. split; [reflexivity | simpl; lia].
Qed.

Lemma sequence_patterns_confident history tasks p :
  In p (analyzeSequencePatterns history tasks) -> confident p.
Proof.
  unfold analyzeSequencePatterns, Js.slice0. intros H.
  apply SortFacts.In_firstn, SortFacts.sort_In, in_flat_map in H.
  destruct H as ([key seq] & _ & H). unfold sequencePatterns in H.
  destruct (Seq.count seq <? 3) eqn:E; [contradiction|].
  apply Z.ltb_ge in E.
  destruct (findTask tasks (Seq.fromTaskId seq)); [|contradiction].
  destruct (findTask tasks (Seq.toTaskId seq)); [|contradiction].
  destruct H as [<-|[]]. split; [reflexivity | simpl; lia].
Qed.

Lemma category_patterns_confident tasks periodCategories bucket p :
  In p (categoryPatterns tasks periodCategories bucket) -> confident p.
Proof.
  destruct bucket as [categoryId categoryHistory]. unfold categoryPatterns.
  destruct (3 <=? Js.len categoryHistory); [|contradiction].
  rewrite in_map_iff. intros (q & <- & Hq).
  apply time_patterns_confident in Hq. exact (proj1 Hq).
Qed.

Lemma confident_bounds p :
  confident p -> (0 <= Pattern.confidence p)%Q /\ (Pattern.confidence p <= 1)%Q.
Proof.
  intros [-> Hn]. split.
  - apply Q.min_glb; [|discriminate].
    apply Qle_shift_div_l.
    + now destruct (Pattern.type p).
    + rewrite Qmult_0_l. unfold Qle. simpl. lia.
  - apply Q.le_min_r.
Qed.

(** C5. Every pattern that an analyzer emits, on any history and task
    catalog, and every pattern of a per-period re-run of the time analyzer,
    has the confidence min(sampleSize / k, 1) for the constant [k] of its
    type, a value between 0 and 1. *)
Theorem confidence_bounded (history : list Entry.t) (tasks : list Task.t)
        (periodCategories : list Category.t) (bucket : string * list Entry.t)
        (p : Pattern.t) :
  In p (analyzeTimePatterns history tasks
        ++ analyzeDurationPatterns history tasks
        ++ analyzeFrequencyPatterns history tasks
        ++ analyzeSequencePatterns history tasks
        ++ categoryPatterns tasks periodCategories bucket) ->
  Pattern.confidence p
  = Qmin (inject_Z (Pattern.sampleSize p)
          / inject_Z (confidenceConstant (Pattern.type p))) 1
  /\ (0 <= Pattern.confidence p)%Q
  /\ (Pattern.confidence p <= 1)%Q.
Proof.
  intros H.
  assert (C : confident p).
  { repeat (apply in_app_or in H; destruct H as [H|H]).
    - now apply time_patterns_confident in H.
    - now apply duration_patterns_confident in H.
    - now apply frequency_patterns_confident in H.
    - now apply sequence_patterns_confident in H.
    - now apply category_patterns_confident in H. }
  split; [exact (proj1 C) | now apply confident_bounds].
Qed.

Lemma confidence_bounded_witness :
  let history :=
    [ Examples.done "run" "2024-01-15" "07:00" "07:30" 30 30;
      Examples.done "run" "2024-01-16" "07:10" "07:40" 30 30;
      Examples.done "run" "2024-01-17" "07:20" "07:50" 30 30 ] in
  let p :=
    Pattern.fresh "time_run"
      (Pattern.Time (TimeP.mk "run" "Corsa" "07:10" (Sqrt (145800 # 2187)))) 3 (3 # 10) in
  In p (analyzeTimePatterns history Examples.tasks
        ++ analyzeDurationPatterns history Examples.tasks
        ++ analyzeFrequencyPatterns history Examples.tasks
        ++ analyzeSequencePatterns history Examples.tasks
        ++ categoryPatterns Examples.tasks [] ("ferie", history)) /\
  (Pattern.confidence p
   = Qmin (inject_Z (Pattern.sampleSize p)
           / inject_Z (confidenceConstant (Pattern.type p))) 1
   /\ (0 <= Pattern.confidence p)%Q
   /\ (Pattern.confidence p <= 1)%Q).
Proof.
  intros history p.
  assert (H : In p (analyzeTimePatterns history Examples.tasks
        ++ analyzeDurationPatterns history Examples.tasks
        ++ analyzeFrequencyPatterns history Examples.tasks
        ++ analyzeSequencePatterns history Examples.tasks
        ++ categoryPatterns Examples.tasks [] ("ferie", history))).
  { apply in_or_app. left. vm_compute. left. reflexivity. }
  split; [exact H|].
  exact (confidence_bounded history Examples.tasks [] ("ferie", history) p H).
Defined.

(* ================================================================== *)
(** ** The gate of the frequency analyzer *)
(* ================================================================== *)

Lemma replay_frequency_some taskId l : forall f,
  exists f',
    Replay.replay frequencyTouch taskId l (Some f) = Some f'
    /\ Freq.count f' = Freq.count f + Js.len (completedOf l taskId).
Proof.
  induction l as [|e r IH]; intros f.
  - exists f. split; [reflexivity|]. unfold completedOf, Js.len. simpl. lia.
  - cbn [Replay.replay fold_left]. unfold frequencyTouch at 2.
    unfold completedOf. cbn [filter].
    destruct (Status_eqb (Entry.status e) completed); cbn [negb andb].
    + rewrite String.eqb_sym.
      destruct (String.eqb (Entry.taskId e) taskId).
      * destruct (IH {| Freq.count := Freq.count f + 1;
                        Freq.days := setAdd (Entry.date e) (Freq.days f);
                        Freq.weekdays :=
                          Obj.update (Js.showNum (Dates.getDay (Entry.date e))) 0
                                     (fun c => c + 1) (Freq.weekdays f) |})
          as (f' & E & C).
        exists f'. split; [exact E|]. rewrite C, len_cons. cbn [Freq.count].
        fold (completedOf r taskId). lia.
      * apply IH.
    + apply IH.
Qed.

Lemma replay_frequency_none taskId l :
  match Replay.replay frequencyTouch taskId l None with
  | Some f => completedOf l taskId <> []
              /\ Freq.count f = Js.len (completedOf l taskId)
  | None => completedOf l taskId = []
  end.
Proof.
  induction l as [|e r IH]; [reflexivity|].
  cbn [Replay.replay fold_left]. unfold frequencyTouch at 2.
  unfold completedOf. cbn [filter].
  destruct (Status_eqb (Entry.status e) completed); cbn [negb andb]; [|exact IH].
  rewrite String.eqb_sym.
  destruct (String.eqb (Entry.taskId e) taskId); [|exact IH].
  destruct (replay_frequency_some taskId r
              {| Freq.count := 0 + 1;
                 Freq.days := setAdd (Entry.date e) [];
                 Freq.weekdays :=
                   Obj.update (Js.showNum (Dates.getDay (Entry.date e))) 0
                              (fun c => c + 1) [] |}) as (f' & E & C).
  cbn [Freq.count Freq.days Freq.weekdays].
  fold (Replay.replay frequencyTouch taskId r) in *.
  unfold Replay.replay in E. rewrite E. split; [discriminate|].
  rewrite C, len_cons. cbn [Freq.count]. fold (completedOf r taskId). lia.
Qed.

(** What [taskFrequencyMap] holds: an entry for every task with a completed
    history entry, counting those entries. *)
Lemma taskFrequencyMap_spec history taskId :
  (forall freq,
     In (taskId, freq) (Obj.entries (taskFrequencyMap history)) ->
     Freq.count freq = Js.len (completedOf history taskId)
     /\ completedOf history taskId <> [])
  /\ (completedOf history taskId <> [] ->
      exists freq, In (taskId, freq) (Obj.entries (taskFrequencyMap history))).
Proof.
  pose proof (replay_frequency_none taskId history) as H.
  split.
  - intros freq Hin.
    rewrite taskFrequencyMap_steps, ObjFacts.entries_fold in Hin.
    rewrite Hin in H. tauto.
  - intros Hne.
    destruct (Replay.replay frequencyTouch taskId history None) as [f|] eqn:E;
      [|contradiction].
    exists f. now rewrite taskFrequencyMap_steps, ObjFacts.entries_fold.
Qed.

(** The gate of [analyzeFrequencyPatterns] counts entries, not dates: two
    entries of one day pass it, the span is taken as one day, and the task
    gets its frequency pattern. *)
Lemma frequency_same_date_emits :
  let history :=
    [ Examples.done "run" "2024-01-15" "07:00" "07:30" 30 30;
      Examples.done "run" "2024-01-15" "18:00" "18:30" 30 30 ] in
  map Entry.date history = ["2024-01-15"; "2024-01-15"]
  /\ totalDaysOf (map (fun h => Dates.getTime (Entry.date h)) history) = 1
  /\ map (fun p => (Pattern.id p, Pattern.type p, Pattern.sampleSize p))
         (analyzeFrequencyPatterns history Examples.tasks)
     = [ ("frequency_run", frequency, 2) ]
  /\ analyzeFrequencyPatterns history Examples.tasks <> [].
Proof.
  intros history. repeat split; try (vm_compute; reflexivity).
  vm_compute. discriminate.
Qed.

(** C2 (as the code has it). [analyzeFrequencyPatterns] returns no pattern
    whenever the history has fewer than two entries. A history of two or
    more entries passes the gate whatever its dates, also when they are all
    the same, and yields a frequency pattern for exactly the tasks of the
    catalog that have a completed entry, counting those entries. *)
Theorem frequency_gate (history : list Entry.t) (tasks : list Task.t) :
  (Js.len history < 2 -> analyzeFrequencyPatterns history tasks = [])
  /\ (2 <= Js.len history ->
      forall taskId,
        ((exists p, In p (analyzeFrequencyPatterns history tasks)
                    /\ Pattern.type p = frequency
                    /\ Pattern.taskId p = Some taskId)
         <-> completedOf history taskId <> [] /\ findTask tasks taskId <> None)
        /\ (forall p, In p (analyzeFrequencyPatterns history tasks) ->
                      Pattern.taskId p = Some taskId ->
                      Pattern.sampleSize p = Js.len (completedOf history taskId))).
Proof.
  unfold analyzeFrequencyPatterns.
  assert (L : Js.len (map (fun h => Dates.getTime (Entry.date h)) history)
              = Js.len history) by (unfold Js.len; now rewrite length_map).
  rewrite L. split.
  - intros H. apply Z.ltb_lt in H. now rewrite H.
  - intros H taskId. apply Z.ltb_ge in H. rewrite H.
    set (totalWeeks := (inject_Z (totalDaysOf _) / 7)%Q).
    destruct (taskFrequencyMap_spec history taskId) as [S1 S2].
    assert (P : forall p,
              In p (flat_map (taskFrequencyPatterns tasks totalWeeks)
                             (Obj.entries (taskFrequencyMap history))) ->
              Pattern.taskId p = Some taskId ->
              exists freq task,
                In (taskId, freq) (Obj.entries (taskFrequencyMap history))
                /\ findTask tasks taskId = Some task
                /\ Pattern.type p = frequency
                /\ Pattern.sampleSize p = Freq.count freq).
    { intros p Hp Hid. apply in_flat_map in Hp. destruct Hp as ([k freq] & Hin & Hp).
      unfold taskFrequencyPatterns in Hp.
      destruct (findTask tasks k) as [task|] eqn:Ef; [|contradiction].
      destruct Hp as [<-|[]]. simpl in Hid. injection Hid as Hk. subst k.
      exists freq, task. split; [exact Hin|]. split; [exact Ef|]. split; reflexivity. }
    split; [split|].
    + intros (p & Hp & _ & Hid). destruct (P p Hp Hid) as (freq & task & Hin & Hf & _).
      split; [apply (S1 freq Hin) | congruence].
    + intros [Hne Hf]. destruct (S2 Hne) as (freq & Hin).
      destruct (findTask tasks taskId) as [task|] eqn:Ef; [|now elim Hf].
      eexists. split.
      { apply in_flat_map. exists (taskId, freq). split; [exact Hin|].
        unfold taskFrequencyPatterns. rewrite Ef. left. reflexivity. }
      split; reflexivity.
    + intros p Hp Hid. destruct (P p Hp Hid) as (freq & task & Hin & _ & _ & ->).
      apply (S1 freq Hin).
Qed.

Lemma frequency_gate_witness :
  let single := [ Examples.done "run" "2024-01-15" "07:00" "07:30" 30 30 ] in
  let sameDate :=
    [ Examples.done "run" "2024-01-15" "07:00" "07:30" 30 30;
      Examples.done "run" "2024-01-15" "18:00" "18:30" 30 30 ] in
  (Js.len single < 2 /\ analyzeFrequencyPatterns single Examples.tasks = [])
  /\ (2 <= Js.len sameDate
      /\ exists p, In p (analyzeFrequencyPatterns sameDate Examples.tasks)
                   /\ Pattern.type p = frequency
                   /\ Pattern.taskId p = Some "run").
Proof.
  intros single sameDate.
  assert (H1 : Js.len single < 2) by reflexivity.
  assert (H2 : 2 <= Js.len sameDate) by (vm_compute; discriminate).
  split.
  - split; [exact H1 | exact (proj1 (frequency_gate single Examples.tasks) H1)].
  - split; [exact H2|].
    apply (proj2 (frequency_gate sameDate Examples.tasks) H2 "run").
    split; vm_compute; discriminate.
Defined.

(* ================================================================== *)
(** ** The time-of-day analyzer *)
(* ================================================================== *)

Lemma getDay_weekday (date : string) : weekday (Dates.getDay date).
Proof.
  unfold Dates.getDay. destruct (Dates.parse date) as [d|]; simpl; [|exact I].
  apply Z.mod_pos_bound. lia.
Qed.

Lemma weekday_cases day :
  weekday day ->
  In day [None; Some 0; Some 1; Some 2; Some 3; Some 4; Some 5; Some 6].
Proof.
  destruct day as [d|]; simpl; [|tauto]. intros H.
  assert (C : d = 0 \/ d = 1 \/ d = 2 \/ d = 3 \/ d = 4 \/ d = 5 \/ d = 6) by lia.
  repeat (destruct C as [->|C]; [tauto|]). subst. tauto.
Qed.

Lemma parseInt_showNum day : weekday day -> Js.parseInt (Js.showNum day) = day.
Proof.
  intros H. apply weekday_cases in H. simpl in H.
  repeat (destruct H as [<-|H]; [reflexivity|]). contradiction.
Qed.

Lemma showNum_sameDay a b :
  weekday a -> weekday b ->
  String.eqb (Js.showNum a) (Js.showNum b) = sameDay b a.
Proof.
  intros Ha Hb. apply weekday_cases in Ha, Hb. simpl in Ha, Hb.
  repeat (destruct Ha as [<-|Ha];
          [repeat (destruct Hb as [<-|Hb]; [reflexivity|]); contradiction|]).
  contradiction.
Qed.

Lemma sameDay_eq a b : sameDay a b = true -> a = b.
Proof.
  destruct a, b; simpl; try discriminate; try reflexivity.
  intros H. apply Z.eqb_eq in H. now subst.
Qed.

Lemma samplesOf_weekday history taskId t :
  In t (samplesOf history taskId) -> weekday (Sample.dayOfWeek t).
Proof.
  unfold samplesOf. rewrite in_map_iff. intros (e & <- & _). apply getDay_weekday.
Qed.

Lemma taskTimeMap_collect history :
  taskTimeMap history = Replay.collect timePlace history.
Proof.
  unfold taskTimeMap, Replay.collect. apply fold_left_ext. intros m entry.
  unfold timePlace. now destruct (negb (Status_eqb (Entry.status entry) completed)).
Qed.

Lemma pushed_samplesOf history taskId :
  Replay.pushed timePlace taskId history = samplesOf history taskId.
Proof.
  unfold samplesOf, completedOf, Replay.pushed, timePlace.
  induction history as [|e r IH]; simpl; [reflexivity|].
  rewrite IH. destruct (Status_eqb (Entry.status e) completed); simpl; [|reflexivity].
  rewrite String.eqb_sym. now destruct (String.eqb (Entry.taskId e) taskId).
Qed.

Lemma taskTimeMap_spec history taskId times :
  In (taskId, times) (Obj.entries (taskTimeMap history))
  <-> times = samplesOf history taskId /\ times <> [].
Proof.
  rewrite taskTimeMap_collect, ObjFacts.collect_spec. now rewrite pushed_samplesOf.
Qed.

Lemma groupBy_spec {A : Type} (array : list A) (key : A -> string) k g :
  In (k, g) (Obj.entries (groupBy array key))
  <-> g = filter (fun x => String.eqb k (key x)) array /\ g <> [].
Proof.
  unfold groupBy.
  change (fold_left (fun result item => Obj.push (key item) item result) array [])
    with (Replay.collect (fun x => Some (key x, x)) array).
  rewrite ObjFacts.collect_spec.
  assert (E : Replay.pushed (fun x => Some (key x, x)) k array
              = filter (fun x => String.eqb k (key x)) array).
  { unfold Replay.pushed. induction array as [|x r IH]; simpl; [reflexivity|].
    rewrite IH. now destruct (String.eqb k (key x)). }
  now rewrite E.
Qed.

(** The weekday groups of a task's samples, as the analyzer reads them
    back: the day each key stands for, and the samples of that day. *)
Lemma dayGroups_spec history taskId key group :
  In (key, group)
     (Obj.entries (groupBy (samplesOf history taskId)
                           (fun t => Js.showNum (Sample.dayOfWeek t))))
  <-> exists day,
        weekday day /\ key = Js.showNum day
        /\ group = onDay day (samplesOf history taskId) /\ group <> [].
Proof.
  rewrite groupBy_spec.
  set (samples := samplesOf history taskId).
  assert (W : forall t, In t samples -> weekday (Sample.dayOfWeek t))
    by (intros t; apply samplesOf_weekday).
  assert (F : forall day, weekday day ->
            filter (fun x => String.eqb (Js.showNum day) (Js.showNum (Sample.dayOfWeek x)))
                   samples
            = onDay day samples).
  { intros day Hd. unfold onDay. apply filter_ext_in. intros t Ht.
    now apply showNum_sameDay; [|apply W]. }
  split.
  - intros [-> Hne].
    destruct (filter _ samples) as [|t r] eqn:E; [now elim Hne|].
    assert (Ht : In t (filter (fun x => String.eqb key (Js.showNum (Sample.dayOfWeek x)))
                              samples)) by (rewrite E; now left).
    apply filter_In in Ht. destruct Ht as [Ht Hk]. apply String.eqb_eq in Hk.
    exists (Sample.dayOfWeek t). split; [now apply W|]. split; [exact Hk|].
    split; [|discriminate]. rewrite <- E, Hk. apply F. now apply W.
  - intros (day & Hd & -> & -> & Hne). split; [|exact Hne]. symmetry. now apply F.
Qed.

Lemma analyzeTimePatterns_In history tasks p :
  In p (analyzeTimePatterns history tasks)
  <-> exists taskId,
        samplesOf history taskId <> []
        /\ In p (taskTimePatterns tasks (taskId, samplesOf history taskId)).
Proof.
  unfold analyzeTimePatterns. rewrite in_flat_map. split.
  - intros ([taskId times] & Hin & Hp). apply taskTimeMap_spec in Hin.
    destruct Hin as [-> Hne]. now exists taskId.
  - intros (taskId & Hne & Hp). exists (taskId, samplesOf history taskId).
    split; [|exact Hp]. now apply taskTimeMap_spec.
Qed.

(** The patterns of one task, read off the loop body. *)
Lemma taskTimePatterns_In tasks taskId times p :
  In p (taskTimePatterns tasks (taskId, times))
  <-> 3 <= Js.len times
      /\ exists task,
           findTask tasks taskId = Some task
           /\ ((exists sd,
                  standardDeviation (minutesOf times) = Some sd
                  /\ Root_ltb sd 60 = true
                  /\ p = Pattern.fresh
                           (Js.template ["time_"; taskId])
                           (Pattern.Time
                              (TimeP.mk taskId (Task.name task)
                                 (minutesToTime (mean (minutesOf times))) sd))
                           (Js.len times) (confidenceOf (Js.len times) 10))
               \/ (exists key group sd,
                     In (key, group)
                        (Obj.entries
                           (groupBy times (fun t => Js.showNum (Sample.dayOfWeek t))))
                     /\ 2 <= Js.len group
                     /\ standardDeviation (minutesOf group) = Some sd
                     /\ Root_ltb sd 45 = true
                     /\ p = Pattern.fresh
                              (Js.template ["time_"; taskId; "_day"; key])
                              (Pattern.TimeDay (Js.parseInt key)
                                 (TimeP.mk taskId (Task.name task)
                                    (minutesToTime (mean (minutesOf group))) sd))
                              (Js.len group) (confidenceOf (Js.len group) 5))).
Proof.
  unfold taskTimePatterns. fold (minutesOf times).
  destruct (Js.len times <? 3) eqn:E3.
  { apply Z.ltb_lt in E3. split; [contradiction | intros [H _]; lia]. }
  apply Z.ltb_ge in E3.
  destruct (findTask tasks taskId) as [task|].
  2:{ split; [contradiction | intros (_ & task & [=] & _)]. }
  rewrite in_app_iff. split.
  - intros H. split; [exact E3|]. exists task. split; [reflexivity|].
    destruct H as [H|H].
    + left. destruct (standardDeviation (minutesOf times)) as [sd|]; [|contradiction].
      destruct (Root_ltb sd 60) eqn:E; [|contradiction].
      destruct H as [<-|[]]. now exists sd.
    + right. apply in_flat_map in H. destruct H as ([key group] & Hin & H).
      unfold dayPattern in H. fold (minutesOf group) in H.
      destruct (2 <=? Js.len group) eqn:E2; [|contradiction].
      apply Z.leb_le in E2.
      destruct (standardDeviation (minutesOf group)) as [sd|] eqn:Esd; [|contradiction].
      destruct (Root_ltb sd 45) eqn:E; [|contradiction].
      destruct H as [<-|[]]. now exists key, group, sd.
  - intros (_ & task' & [= <-] & [H|H]).
    + left. destruct H as (sd & -> & -> & ->). now left.
    + right. destruct H as (key & group & sd & Hin & H2 & Hsd & Hlt & ->).
      apply in_flat_map. exists (key, group). split; [exact Hin|].
      unfold dayPattern. fold (minutesOf group).
      apply Z.leb_le in H2. rewrite H2, Hsd, Hlt. now left.
Qed.

Lemma taskTimePatterns_taskId tasks taskId times p :
  In p (taskTimePatterns tasks (taskId, times)) -> Pattern.taskId p = Some taskId.
Proof.
  rewrite taskTimePatterns_In.
  intros (_ & task & _ & [(sd & _ & _ & ->)|(key & group & sd & _ & _ & _ & _ & ->)]);
    reflexivity.
Qed.

(** The patterns the analyzer emits for one given task. *)
Lemma analyzeTimePatterns_of_task history tasks taskId p :
  In p (analyzeTimePatterns history tasks) /\ Pattern.taskId p = Some taskId
  <-> In p (taskTimePatterns tasks (taskId, samplesOf history taskId)).
Proof.
  rewrite analyzeTimePatterns_In. split.
  - intros [(tid & _ & Hp) Ht].
    pose proof (taskTimePatterns_taskId _ _ _ _ Hp) as Ht'.
    rewrite Ht in Ht'. injection Ht' as ->. exact Hp.
  - intros Hp. split; [|now apply taskTimePatterns_taskId in Hp].
    exists taskId. split; [|exact Hp].
    apply taskTimePatterns_In in Hp. destruct Hp as [H3 _].
    intros E. rewrite E in H3. unfold Js.len in H3. simpl in H3. lia.
Qed.

(** C6 (as the code has it). For a task, [analyzeTimePatterns] emits a
    [time] pattern exactly when the task has at least 3 completed entries,
    is in the catalog, and the standard deviation of their start minutes is
    below 60; the pattern counts those entries and has confidence
    min(sampleSize / 10, 1). For a task and a weekday it emits a [time_day]
    pattern exactly when the task passes the same two tests (at least 3
    completed entries in all, present in the catalog) and the weekday group
    has at least 2 samples with standard deviation below 45; the pattern
    counts the group and has confidence min(sampleSize / 5, 1). *)
Theorem time_patterns_emitted (history : list Entry.t) (tasks : list Task.t)
        (taskId : string) :
  let samples := samplesOf history taskId in
  let emitted := analyzeTimePatterns history tasks in
  ((exists p, In p emitted /\ Pattern.type p = time /\ Pattern.taskId p = Some taskId)
   <-> 3 <= Js.len samples
       /\ findTask tasks taskId <> None
       /\ deviationBelow (minutesOf samples) 60 = true)
  /\ (forall p,
        In p emitted -> Pattern.type p = time -> Pattern.taskId p = Some taskId ->
        Pattern.sampleSize p = Js.len samples
        /\ Pattern.confidence p = Qmin (inject_Z (Js.len samples) / 10) 1)
  /\ (forall day,
        let group := onDay day samples in
        ((exists p i, In p emitted /\ Pattern.body p = Pattern.TimeDay day i
                      /\ TimeP.taskId i = taskId)
         <-> 3 <= Js.len samples
             /\ findTask tasks taskId <> None
             /\ 2 <= Js.len group
             /\ deviationBelow (minutesOf group) 45 = true)
        /\ (forall p i,
              In p emitted -> Pattern.body p = Pattern.TimeDay day i ->
              TimeP.taskId i = taskId ->
              Pattern.sampleSize p = Js.len group
              /\ Pattern.confidence p = Qmin (inject_Z (Js.len group) / 5) 1)).
Proof.
  intros samples emitted.
  assert (T : forall p, In p emitted -> Pattern.type p = time ->
              Pattern.taskId p = Some taskId ->
              3 <= Js.len samples /\ exists task sd,
                findTask tasks taskId = Some task
                /\ standardDeviation (minutesOf samples) = Some sd
                /\ Root_ltb sd 60 = true
                /\ Pattern.sampleSize p = Js.len samples
                /\ Pattern.confidence p = confidenceOf (Js.len samples) 10).
  { intros p Hin Hty Hid.
    assert (H : In p (taskTimePatterns tasks (taskId, samples)))
      by (apply analyzeTimePatterns_of_task; now split).
    apply taskTimePatterns_In in H. destruct H as (H3 & task & Hf & [H|H]).
    - destruct H as (sd & Hsd & Hlt & ->). split; [exact H3|]. now exists task, sd.
    - destruct H as (key & group & sd & _ & _ & _ & _ & ->). discriminate. }
  assert (D : forall day p i, In p emitted -> Pattern.body p = Pattern.TimeDay day i ->
              TimeP.taskId i = taskId ->
              3 <= Js.len samples /\ exists task sd,
                findTask tasks taskId = Some task
                /\ 2 <= Js.len (onDay day samples)
                /\ standardDeviation (minutesOf (onDay day samples)) = Some sd
                /\ Root_ltb sd 45 = true
                /\ Pattern.sampleSize p = Js.len (onDay day samples)
                /\ Pattern.confidence p = confidenceOf (Js.len (onDay day samples)) 5).
  { intros day p i Hin Hb Hid.
    assert (H : In p (taskTimePatterns tasks (taskId, samples))).
    { apply analyzeTimePatterns_of_task. split; [exact Hin|].
      unfold Pattern.taskId. rewrite Hb. now rewrite Hid. }
    apply taskTimePatterns_In in H. destruct H as (H3 & task & Hf & [H|H]).
    - destruct H as (sd & _ & _ & ->). discriminate.
    - destruct H as (key & group & sd & Hg & H2 & Hsd & Hlt & ->).
      apply dayGroups_spec in Hg. destruct Hg as (day' & Hw & -> & -> & _).
      simpl in Hb. rewrite parseInt_showNum in Hb by exact Hw.
      injection Hb as -> _. split; [exact H3|]. now exists task, sd. }
  split; [|split].
  - split.
    + intros (p & Hin & Hty & Hid).
      destruct (T p Hin Hty Hid) as (H3 & task & sd & Hf & Hsd & Hlt & _).
      split; [exact H3|]. split; [congruence|].
      unfold deviationBelow. now rewrite Hsd.
    + intros (H3 & Hf & Hd).
      destruct (findTask tasks taskId) as [task|] eqn:Ef; [|now elim Hf].
      unfold deviationBelow in Hd.
      destruct (standardDeviation (minutesOf samples)) as [sd|] eqn:Esd; [|discriminate].
      set (p := Pattern.fresh
                  (Js.template ["time_"; taskId])
                  (Pattern.Time
                     (TimeP.mk taskId (Task.name task)
                        (minutesToTime (mean (minutesOf samples))) sd))
                  (Js.len samples) (confidenceOf (Js.len samples) 10)).
      assert (H : In p (taskTimePatterns tasks (taskId, samples))).
      { apply taskTimePatterns_In. split; [exact H3|]. exists task.
        split; [exact Ef|]. left. now exists sd. }
      apply analyzeTimePatterns_of_task in H. destruct H as [Hin Hid].
      exists p. split; [exact Hin|]. split; [reflexivity | exact Hid].
  - intros p Hin Hty Hid.
    destruct (T p Hin Hty Hid) as (_ & task & sd & _ & _ & _ & Hn & Hc). now split.
  - intros day group. split.
    + split.
      * intros (p & i & Hin & Hb & Hid).
        destruct (D day p i Hin Hb Hid) as (H3 & task & sd & Hf & H2 & Hsd & Hlt & _).
        split; [exact H3|]. split; [congruence|]. split; [exact H2|].
        unfold deviationBelow, group. now rewrite Hsd.
      * intros (H3 & Hf & H2 & Hd).
        destruct (findTask tasks taskId) as [task|] eqn:Ef; [|now elim Hf].
        unfold deviationBelow in Hd.
        destruct (standardDeviation (minutesOf group)) as [sd|] eqn:Esd; [|discriminate].
        assert (Hne : group <> []).
        { intros E. rewrite E in H2. unfold Js.len in H2. simpl in H2. lia. }
        assert (Hw : weekday day).
        { destruct group as [|t r] eqn:Eg; [now elim Hne|].
          assert (Ht : In t (onDay day samples)) by (fold group; rewrite Eg; now left).
          apply filter_In in Ht. destruct Ht as [Ht Hs].
          apply sameDay_eq in Hs. subst day. now apply (samplesOf_weekday history taskId). }
        set (i := TimeP.mk taskId (Task.name task)
                            (minutesToTime (mean (minutesOf group))) sd).
        set (p := Pattern.fresh
                    (Js.template ["time_"; taskId; "_day"; Js.showNum day])
                    (Pattern.TimeDay (Js.parseInt (Js.showNum day)) i)
                    (Js.len group) (confidenceOf (Js.len group) 5)).
        assert (H : In p (taskTimePatterns tasks (taskId, samples))).
        { apply taskTimePatterns_In. split; [exact H3|]. exists task.
          split; [exact Ef|]. right. exists (Js.showNum day), group, sd.
          split; [apply dayGroups_spec; now exists day|].
          split; [exact H2|]. split; [exact Esd|]. split; [exact Hd|]. reflexivity. }
        apply analyzeTimePatterns_of_task in H. destruct H as [Hin _].
        exists p, i. split; [exact Hin|]. split; [|reflexivity].
        unfold p. simpl. now rewrite parseInt_showNum.
    + intros p i Hin Hb Hid.
      destruct (D day p i Hin Hb Hid) as (_ & task & sd & _ & _ & _ & _ & Hn & Hc).
      now split.
Qed.

(** The [time_day] half of the claim without the task's own gate fails: a
    catalog task completed twice, both on a Monday at 07:00, has a Monday
    group of 2 samples with deviation 0, and no pattern is emitted. *)
Lemma time_day_needs_three_entries :
  let history :=
    [ Examples.done "run" "2024-01-15" "07:00" "07:30" 30 30;
      Examples.done "run" "2024-01-22" "07:00" "07:30" 30 30 ] in
  let group := onDay (Some 1) (samplesOf history "run") in
  (2 <= Js.len group /\ deviationBelow (minutesOf group) 45 = true)
  /\ findTask Examples.tasks "run" <> None
  /\ analyzeTimePatterns history Examples.tasks = []
  /\ ~ ((exists p i, In p (analyzeTimePatterns history Examples.tasks)
                     /\ Pattern.body p = Pattern.TimeDay (Some 1) i
                     /\ TimeP.taskId i = "run")
        <-> 2 <= Js.len group /\ deviationBelow (minutesOf group) 45 = true).
Proof.
  intros history group.
  assert (G : 2 <= Js.len group /\ deviationBelow (minutesOf group) 45 = true).
  { split; [vm_compute; discriminate | vm_compute; reflexivity]. }
  assert (E : analyzeTimePatterns history Examples.tasks = [])
    by (vm_compute; reflexivity).
  split; [exact G|]. split; [vm_compute; discriminate|]. split; [exact E|].
  intros [_ H]. destruct (H G) as (p & i & Hin & _). rewrite E in Hin. contradiction.
Qed.

Lemma time_patterns_emitted_witness :
  let history :=
    [ Examples.done "run" "2024-01-15" "07:00" "07:30" 30 30;
      Examples.done "run" "2024-01-16" "07:10" "07:40" 30 30;
      Examples.done "run" "2024-01-22" "07:20" "07:50" 30 30 ] in
  (exists p, In p (analyzeTimePatterns history Examples.tasks)
             /\ Pattern.type p = time /\ Pattern.taskId p = Some "run")
  /\ (exists p i, In p (analyzeTimePatterns history Examples.tasks)
                  /\ Pattern.body p = Pattern.TimeDay (Some 1) i
                  /\ TimeP.taskId i = "run").
Proof.
  intros history.
  pose proof (time_patterns_emitted history Examples.tasks "run") as (T & _ & D).
  split.
  - apply T. repeat split; try (vm_compute; reflexivity); vm_compute; discriminate.
  - apply (D (Some 1)).
    repeat split; try (vm_compute; reflexivity); vm_compute; discriminate.
Defined.

(* ================================================================== *)
(** ** The sequence analyzer *)
(* ================================================================== *)

Lemma sequenceStep_pairs l : forall lastEntry m,
  snd (fold_left sequenceStep l (lastEntry, m))
  = fold_left (Replay.step sequenceTouch) (pairsFrom lastEntry l) m.
Proof.
  induction l as [|entry r IH]; intros lastEntry m; simpl; [reflexivity|].
  destruct lastEntry as [lastEntry|]; simpl; [|apply IH].
  destruct (String.eqb (Entry.date lastEntry) (Entry.date entry)); simpl; apply IH.
Qed.

Lemma sequenceMap_steps history :
  sequenceMap history
  = fold_left (Replay.step sequenceTouch) (transitions history) [].
Proof. unfold sequenceMap, transitions. apply sequenceStep_pairs. Qed.

Lemma tally_seen key ab r s :
  String.eqb key (keyOf ab) = true ->
  tally key (ab :: r) s
  = tally key r {| Seq.fromTaskId := Seq.fromTaskId s;
                   Seq.toTaskId := Seq.toTaskId s;
                   Seq.count := Seq.count s + 1;
                   Seq.avgGap := Seq.avgGap s ++ gapsOf ab |}.
Proof.
  intros E. unfold tally. cbn [filter]. rewrite E.
  cbn [flat_map Seq.fromTaskId Seq.toTaskId Seq.count Seq.avgGap].
  rewrite len_cons. f_equal; [lia | now rewrite app_assoc].
Qed.

Lemma tally_unseen key ab r s :
  String.eqb key (keyOf ab) = false -> tally key (ab :: r) s = tally key r s.
Proof. intros E. unfold tally. cbn [filter]. now rewrite E. Qed.

Lemma replay_sequence_some key l : forall s,
  Replay.replay sequenceTouch key l (Some s) = Some (tally key l s).
Proof.
  induction l as [|ab r IH]; intros s.
  - unfold tally. simpl. rewrite Z.add_0_r, app_nil_r. now destruct s.
  - cbn [Replay.replay fold_left sequenceTouch].
    destruct (String.eqb key (keyOf ab)) eqn:E.
    + rewrite tally_seen by exact E. apply IH.
    + rewrite tally_unseen by exact E. apply IH.
Qed.

Lemma replay_sequence_none key l :
  Replay.replay sequenceTouch key l None
  = match filter (fun ab => String.eqb key (keyOf ab)) l with
    | [] => None
    | ab :: _ =>
        Some (tally key l {| Seq.fromTaskId := Entry.taskId (fst ab);
                             Seq.toTaskId := Entry.taskId (snd ab);
                             Seq.count := 0;
                             Seq.avgGap := [] |})
    end.
Proof.
  induction l as [|ab r IH]; [reflexivity|].
  cbn [Replay.replay fold_left sequenceTouch filter].
  destruct (String.eqb key (keyOf ab)) eqn:E.
  - rewrite tally_seen by exact E. apply replay_sequence_some.
  - change (Replay.replay sequenceTouch key r None = 
            match filter (fun ab => String.eqb key (keyOf ab)) r with
            | [] => None
            | ab0 :: _ =>
                Some (tally key (ab :: r)
                        {| Seq.fromTaskId := Entry.taskId (fst ab0);
                           Seq.toTaskId := Entry.taskId (snd ab0);
                           Seq.count := 0;
                           Seq.avgGap := [] |})
            end).
    rewrite IH.
    destruct (filter _ r) as [|ab' r']; [reflexivity|].
    now rewrite tally_unseen by exact E.
Qed.

(** What [sequenceMap] holds: under each observed key, the two tasks named
    by the key, the number of observed transitions and their valid gaps. *)
Lemma sequenceMap_spec history key seq :
  In (key, seq) (Obj.entries (sequenceMap history)) ->
  key = Js.template [Seq.fromTaskId seq; "_"; Seq.toTaskId seq]
  /\ Seq.count seq = Js.len (observed history key)
  /\ Seq.avgGap seq = collectedGaps history key.
Proof.
  rewrite sequenceMap_steps, ObjFacts.entries_fold, replay_sequence_none.
  unfold collectedGaps, observed.
  destruct (filter _ (transitions history)) as [|ab r] eqn:E; [discriminate|].
  intros [= <-]. unfold tally. rewrite E. simpl.
  split; [|split; reflexivity].
  assert (H : In ab (filter (fun ab => String.eqb key (keyOf ab)) (transitions history)))
    by (rewrite E; now left).
  apply filter_In in H. destruct H as [_ H]. apply String.eqb_eq in H. exact H.
Qed.

Lemma sequencePatterns_In tasks key seq p :
  In p (sequencePatterns tasks (key, seq)) ->
  qualifies tasks (key, seq) = true
  /\ exists fromName toName,
       p = Pattern.fresh
             (Js.template ["sequence_"; key])
             (Pattern.Sequence
                (SequenceP.mk (Seq.fromTaskId seq) fromName (Seq.toTaskId seq) toName
                   (Seq.count seq) (averageGapOf (avgGapOf (Seq.avgGap seq)))))
             (Seq.count seq) (confidenceOf (Seq.count seq) 10).
Proof.
  unfold sequencePatterns, qualifies, inCatalog. simpl.
  destruct (Seq.count seq <? 3) eqn:E; [contradiction|].
  apply Z.ltb_ge in E. apply Z.leb_le in E. rewrite E.
  destruct (findTask tasks (Seq.fromTaskId seq)) as [fromTask|]; [|contradiction].
  destruct (findTask tasks (Seq.toTaskId seq)) as [toTask|]; [|contradiction].
  intros [<-|[]]. split; [reflexivity|]. now eexists _, _.
Qed.

Lemma sequencePatterns_length tasks kv :
  List.length (sequencePatterns tasks kv) = if qualifies tasks kv then 1%nat else 0%nat.
Proof.
  destruct kv as [key seq]. unfold sequencePatterns, qualifies, inCatalog. simpl.
  rewrite Z.leb_antisym.
  destruct (Seq.count seq <? 3); simpl; [reflexivity|].
  destruct (findTask tasks (Seq.fromTaskId seq)); simpl; [|reflexivity].
  now destruct (findTask tasks (Seq.toTaskId seq)).
Qed.

Lemma sequence_candidates_length tasks l :
  List.length (flat_map (sequencePatterns tasks) l)
  = List.length (filter (qualifies tasks) l).
Proof.
  induction l as [|kv r IH]; simpl; [reflexivity|].
  rewrite length_app, IH, sequencePatterns_length.
  now destruct (qualifies tasks kv).
Qed.

Lemma sequenceMap_keys_distinct history :
  NoDup (map fst (Obj.entries (sequenceMap history))).
Proof.
  apply (Permutation_NoDup (l := map fst (sequenceMap history))).
  - apply Permutation_map. symmetry. apply ObjFacts.entries_perm.
  - rewrite sequenceMap_steps. apply ObjFacts.NoDup_steps. constructor.
Qed.

Lemma NoDup_map_filter {A B : Type} (f : A -> B) (keep : A -> bool) (l : list A) :
  NoDup (map f l) -> NoDup (map f (filter keep l)).
Proof.
  induction l as [|a r IH]; simpl; [auto|]. intros ND.
  inversion ND as [|? ? Hn ND']; subst.
  destruct (keep a); simpl; [|auto]. constructor; [|auto].
  intros H. apply Hn. apply in_map_iff in H. destruct H as (x & Hx & Hin).
  apply filter_In in Hin. apply in_map_iff. exists x. tauto.
Qed.

Lemma StronglySorted_impl {A : Type} (R R' : A -> A -> Prop) (l : list A) :
  (forall a b, R a b -> R' a b) -> StronglySorted R l -> StronglySorted R' l.
Proof.
  intros HR S. induction S as [|a l S IH Hall]; constructor; [exact IH|].
  eapply Forall_impl; [|exact Hall]. intros b. apply HR.
Qed.

Lemma analyzeSequencePatterns_In history tasks p :
  In p (analyzeSequencePatterns history tasks) ->
  exists key seq,
    In (key, seq) (Obj.entries (sequenceMap history))
    /\ In p (sequencePatterns tasks (key, seq)).
Proof.
  unfold analyzeSequencePatterns, Js.slice0. intros H.
  apply SortFacts.In_firstn, SortFacts.sort_In, in_flat_map in H.
  destruct H as ([key seq] & Hin & H). now exists key, seq.
Qed.

(** C7. [analyzeSequencePatterns] emits a pattern only for a transition
    counted at least 3 times, the count being the number of times the
    transition was observed between neighbours of the same day, and only
    between two tasks of the catalog; the list it returns is sorted by
    count, largest first, and holds the first 20 of the qualifying
    transitions, all of them when there are fewer; so 25 distinct
    qualifying transitions yield exactly 20 patterns. *)
Theorem sequence_patterns_capped (history : list Entry.t) (tasks : list Task.t) :
  let emitted := analyzeSequencePatterns history tasks in
  (forall p, In p emitted ->
     exists i,
       Pattern.body p = Pattern.Sequence i
       /\ 3 <= SequenceP.count i
       /\ SequenceP.count i
          = Js.len (observed history
                      (Js.template [SequenceP.fromTaskId i; "_"; SequenceP.toTaskId i]))
       /\ findTask tasks (SequenceP.fromTaskId i) <> None
       /\ findTask tasks (SequenceP.toTaskId i) <> None)
  /\ StronglySorted (fun a b => countOf b <= countOf a) emitted
  /\ (List.length emitted <= 20)%nat
  /\ NoDup (map fst (qualifying history tasks))
  /\ List.length emitted = Nat.min 20 (List.length (qualifying history tasks))
  /\ (List.length (qualifying history tasks) = 25%nat -> List.length emitted = 20%nat).
Proof.
  intros emitted.
  assert (L : List.length emitted = Nat.min 20 (List.length (qualifying history tasks))).
  { unfold emitted, analyzeSequencePatterns, Js.slice0, qualifying.
    now rewrite length_firstn, SortFacts.sort_length, sequence_candidates_length. }
  split; [|split; [|split; [|split; [|split]]]].
  - intros p Hp. apply analyzeSequencePatterns_In in Hp.
    destruct Hp as (key & seq & Hin & Hp).
    apply sequenceMap_spec in Hin. destruct Hin as (Hkey & Hcount & _).
    apply sequencePatterns_In in Hp. destruct Hp as (Hq & fromName & toName & ->).
    unfold qualifies, inCatalog in Hq. simpl in Hq.
    apply andb_prop in Hq. destruct Hq as [Hq Hto].
    apply andb_prop in Hq. destruct Hq as [H3 Hfrom]. apply Z.leb_le in H3.
    eexists. split; [reflexivity|]. simpl.
    split; [exact H3|]. split; [now rewrite <- Hkey|].
    split.
    + destruct (findTask tasks (Seq.fromTaskId seq)); [discriminate|discriminate].
    + destruct (findTask tasks (Seq.toTaskId seq)); [discriminate|discriminate].
  - unfold emitted, analyzeSequencePatterns, Js.slice0.
    apply SortFacts.firstn_strongly_sorted.
    assert (B : forall a b : Pattern.t,
              before (fun a b => inject_Z (countOf b - countOf a)) a b
              <-> countOf b <= countOf a).
    { intros a b. unfold before.
      change 0%Q with (inject_Z 0). rewrite <- Zle_Qle. lia. }
    apply (StronglySorted_impl
             (before (fun a b => inject_Z (countOf b - countOf a)))).
    + intros a b. apply B.
    + apply SortFacts.sort_strongly_sorted.
      * intros a b. rewrite !B. lia.
      * intros a b c. rewrite !B. lia.
  - rewrite L. apply Nat.le_min_l.
  - apply NoDup_map_filter, sequenceMap_keys_distinct.
  - exact L.
  - intros H. rewrite L, H. reflexivity.
Qed.

Lemma sequence_patterns_capped_witness :
  List.length (qualifying (distinctTransitions 25) (pairTasks 25)) = 25%nat
  /\ List.length (analyzeSequencePatterns (distinctTransitions 25) (pairTasks 25))
     = 20%nat.
Proof.
  pose proof (sequence_patterns_capped (distinctTransitions 25) (pairTasks 25)) as H.
  cbv zeta in H. destruct H as (_ & _ & _ & _ & _ & H).
  assert (Q : List.length (qualifying (distinctTransitions 25) (pairTasks 25)) = 25%nat)
    by (vm_compute; reflexivity).
  split; [exact Q | exact (H Q)].
Defined.

(* ================================================================== *)
(** ** The average gap of a sequence pattern *)
(* ================================================================== *)

Lemma gapsOf_valid ab : Forall (fun g => 0 <= g < 240) (gapsOf ab).
Proof.
  destruct ab as [lastEntry entry]. unfold gapsOf.
  destruct (Js.truthy (Entry.endTime lastEntry) && Js.truthy (Entry.startTime entry));
    [|constructor].
  destruct (timeToMinutes (Entry.startTime entry)) as [s|]; [|constructor].
  destruct (timeToMinutes (Entry.endTime lastEntry)) as [e|]; [|constructor].
  destruct ((0 <=? s - e) && (s - e <? 240)) eqn:E; [|constructor].
  apply andb_prop in E. destruct E as [E1 E2].
  apply Z.leb_le in E1. apply Z.ltb_lt in E2. repeat constructor; assumption.
Qed.

Lemma collectedGaps_valid history key :
  Forall (fun g => 0 <= g < 240) (collectedGaps history key).
Proof.
  unfold collectedGaps. induction (observed history key) as [|ab r IH]; simpl.
  - constructor.
  - apply Forall_app. split; [apply gapsOf_valid | exact IH].
Qed.

Lemma quotient_not_zero (s : Z) (n : positive) :
  0 < s -> Qeq_bool (inject_Z s / inject_Z (Z.pos n)) 0 = false.
Proof.
  intros H. destruct (Qeq_bool _ 0) eqn:E; [|reflexivity].
  apply Qeq_bool_eq in E.
  unfold Qeq, Qdiv, Qmult, Qinv, inject_Z in E. simpl in E. lia.
Qed.

(** The claim as stated fails on both counts. Three transitions with the
    valid gaps 1, 2 and 2 have the mean 5/3 and report the average gap 2,
    its rounding; three transitions with the valid gaps 0, 0 and 0 were
    collected and report [null], not 0. *)
Lemma averageGap_is_not_the_mean :
  let tasks := [ Task.mk "a" "A" "work" 30; Task.mk "b" "B" "work" 30 ] in
  let spaced :=
    [ Examples.done "a" "2024-01-15" "08:00" "08:30" 30 30;
      Examples.done "b" "2024-01-15" "08:31" "09:00" 30 30;
      Examples.done "a" "2024-01-16" "08:00" "08:30" 30 30;
      Examples.done "b" "2024-01-16" "08:32" "09:00" 30 30;
      Examples.done "a" "2024-01-17" "08:00" "08:30" 30 30;
      Examples.done "b" "2024-01-17" "08:32" "09:00" 30 30 ] in
  let adjacent :=
    [ Examples.done "a" "2024-01-15" "08:00" "08:30" 30 30;
      Examples.done "b" "2024-01-15" "08:30" "09:00" 30 30;
      Examples.done "a" "2024-01-16" "08:00" "08:30" 30 30;
      Examples.done "b" "2024-01-16" "08:30" "09:00" 30 30;
      Examples.done "a" "2024-01-17" "08:00" "08:30" 30 30;
      Examples.done "b" "2024-01-17" "08:30" "09:00" 30 30 ] in
  (collectedGaps spaced "a_b" = [1; 2; 2]
   /\ map (fun p => (Pattern.id p, Pattern.body p)) (analyzeSequencePatterns spaced tasks)
      = [ ("sequence_a_b", Pattern.Sequence (SequenceP.mk "a" "A" "b" "B" 3 (Some 2))) ]
   /\ ~ Qeq (inject_Z 2)
            (Qdiv (inject_Z (Js.sumZ (collectedGaps spaced "a_b")))
                  (inject_Z (Js.len (collectedGaps spaced "a_b")))))
  /\ (collectedGaps adjacent "a_b" = [0; 0; 0]
      /\ map (fun p => (Pattern.id p, Pattern.body p))
             (analyzeSequencePatterns adjacent tasks)
         = [ ("sequence_a_b", Pattern.Sequence (SequenceP.mk "a" "A" "b" "B" 3 None)) ]).
Proof.
  intros tasks spaced adjacent. split; [split; [|split]|split].
  - vm_compute. reflexivity.
  - vm_compute. reflexivity.
  - vm_compute. discriminate.
  - vm_compute. reflexivity.
  - vm_compute. reflexivity.
Qed.

(** C3 (as the code has it). For a sequence pattern that
    [analyzeSequencePatterns] emits, take the valid gaps collected for its
    transition (each at least 0 and below 240 minutes). If none was
    collected the average gap is [null]; if they are not all zero, the
    average gap is their arithmetic mean rounded to the nearest integer. *)
Theorem average_gap_rounded (history : list Entry.t) (tasks : list Task.t)
        (p : Pattern.t) (i : SequenceP.t) :
  In p (analyzeSequencePatterns history tasks) ->
  Pattern.body p = Pattern.Sequence i ->
  let gaps :=
    collectedGaps history
      (Js.template [SequenceP.fromTaskId i; "_"; SequenceP.toTaskId i]) in
  Forall (fun g => 0 <= g < 240) gaps
  /\ (gaps = [] -> SequenceP.averageGap i = None)
  /\ (0 < Js.sumZ gaps ->
      SequenceP.averageGap i
      = Some (Js.round (inject_Z (Js.sumZ gaps) / inject_Z (Js.len gaps)))).
Proof.
  intros Hp Hb gaps. split; [apply collectedGaps_valid|].
  apply analyzeSequencePatterns_In in Hp. destruct Hp as (key & seq & Hin & Hp).
  apply sequenceMap_spec in Hin. destruct Hin as (Hkey & _ & Hgaps).
  apply sequencePatterns_In in Hp. destruct Hp as (_ & fromName & toName & ->).
  simpl in Hb. injection Hb as <-. simpl in gaps. simpl.
  assert (G : Seq.avgGap seq = gaps) by (unfold gaps; now rewrite <- Hkey).
  rewrite G. split.
  - intros ->. reflexivity.
  - intros Hs. unfold avgGapOf, averageGapOf.
    destruct gaps as [|g r] eqn:Eg; [discriminate Hs|].
    rewrite len_cons.
    assert (Hl : 0 < 1 + Js.len r) by (pose proof (len_nonneg r); lia).
    apply Z.ltb_lt in Hl. rewrite Hl.
    destruct (1 + Js.len r) as [|n|n] eqn:En; try discriminate.
    now rewrite quotient_not_zero.
Qed.

Lemma average_gap_rounded_witness :
  let tasks := [ Task.mk "a" "A" "work" 30; Task.mk "b" "B" "work" 30 ] in
  let history :=
    [ Examples.done "a" "2024-01-15" "08:00" "08:30" 30 30;
      Examples.done "b" "2024-01-15" "08:31" "09:00" 30 30;
      Examples.done "a" "2024-01-16" "08:00" "08:30" 30 30;
      Examples.done "b" "2024-01-16" "08:32" "09:00" 30 30;
      Examples.done "a" "2024-01-17" "08:00" "08:30" 30 30;
      Examples.done "b" "2024-01-17" "08:32" "09:00" 30 30 ] in
  let i := SequenceP.mk "a" "A" "b" "B" 3 (Some 2) in
  let p := Pattern.fresh "sequence_a_b" (Pattern.Sequence i) 3 (3 # 10) in
  (In p (analyzeSequencePatterns history tasks)
   /\ Pattern.body p = Pattern.Sequence i)
  /\ 0 < Js.sumZ (collectedGaps history "a_b")
  /\ SequenceP.averageGap i
     = Some (Js.round (inject_Z (Js.sumZ (collectedGaps history "a_b"))
                       / inject_Z (Js.len (collectedGaps history "a_b")))).
Proof.
  intros tasks history i p.
  assert (H1 : In p (analyzeSequencePatterns history tasks))
    by (vm_compute; left; reflexivity).
  assert (H2 : Pattern.body p = Pattern.Sequence i) by reflexivity.
  assert (H3 : 0 < Js.sumZ (collectedGaps history "a_b")) by (vm_compute; reflexivity).
  split; [now split|]. split; [exact H3|].
  exact (proj2 (proj2 (average_gap_rounded history tasks p i H1 H2)) H3).
Defined.

(* ================================================================== *)
(** ** Routine suggestions *)
(* ================================================================== *)

Lemma before_byTimeAndConfidence a b :
  before byTimeAndConfidence a b <-> timeThenConfidence a b.
Proof.
  unfold before, byTimeAndConfidence, timeThenConfidence, Js.localeCompare.
  destruct (String.compare (Suggestion.suggestedTime a) (Suggestion.suggestedTime b))
    eqn:E; simpl.
  - apply String.compare_eq_iff in E. split.
    + intros H. right. split; [exact E|].
      apply Qle_minus_iff in H. apply Qle_minus_iff.
      setoid_replace (Suggestion.confidence a + - Suggestion.confidence b)%Q
        with (0 + - (Suggestion.confidence b - Suggestion.confidence a))%Q by ring.
      exact H.
    + intros [H|[_ H]]; [discriminate|].
      apply Qle_minus_iff. apply Qle_minus_iff in H.
      setoid_replace (0 + - (Suggestion.confidence b - Suggestion.confidence a))%Q
        with (Suggestion.confidence a + - Suggestion.confidence b)%Q by ring.
      exact H.
  - split; [now left | discriminate].
  - split.
    + intros H. exfalso. revert H. apply Qlt_not_le. reflexivity.
    + intros [H|[H _]]; [discriminate|].
      apply OrderedTypeEx.String_as_OT.cmp_eq in H.
      unfold OrderedTypeEx.String_as_OT.cmp in H. congruence.
Qed.

Lemma timeThenConfidence_total a b :
  timeThenConfidence a b \/ timeThenConfidence b a.
Proof.
  unfold timeThenConfidence.
  destruct (String.compare (Suggestion.suggestedTime a) (Suggestion.suggestedTime b))
    eqn:E.
  - apply String.compare_eq_iff in E.
    destruct (Qlt_le_dec (Suggestion.confidence a) (Suggestion.confidence b)) as [H|H].
    + right. right. split; [now symmetry | now apply Qlt_le_weak].
    + left. right. now split.
  - left. now left.
  - right. left. rewrite String.compare_antisym, E. reflexivity.
Qed.

Lemma compare_Lt_trans (x y z : string) :
  String.compare x y = Lt -> String.compare y z = Lt -> String.compare x z = Lt.
Proof.
  intros H1 H2.
  apply OrderedTypeEx.String_as_OT.cmp_lt.
  apply OrderedTypeEx.String_as_OT.cmp_lt in H1, H2.
  eapply OrderedTypeEx.String_as_OT.lt_trans; eassumption.
Qed.

Lemma timeThenConfidence_trans a b c :
  timeThenConfidence a b -> timeThenConfidence b c -> timeThenConfidence a c.
Proof.
  unfold timeThenConfidence. intros [H1|[E1 H1]] [H2|[E2 H2]].
  - left. eapply compare_Lt_trans; eassumption.
  - left. now rewrite <- E2.
  - left. now rewrite E1.
  - right. split; [congruence | eapply Qle_trans; eassumption].
Qed.

Lemma find_filter {A : Type} (p q : A -> bool) (l : list A) :
  (forall x, p x = true -> q x = true) ->
  List.find p (filter q l) = List.find p l.
Proof.
  intros H. induction l as [|x r IH]; simpl; [reflexivity|].
  destruct (q x) eqn:Eq; simpl.
  - now rewrite IH.
  - destruct (p x) eqn:Ep; [|exact IH]. apply H in Ep. congruence.
Qed.

Lemma truthy_nonempty (s : string) : s <> "" -> Js.truthy s = true.
Proof.
  intros H. unfold Js.truthy. destruct (String.eqb s "") eqn:E; [|reflexivity].
  apply String.eqb_eq in E. contradiction.
Qed.

(** [minutesToTime] never returns the empty string, so the time patterns
    that [analyzeTimePatterns] builds carry a non-empty [averageTime]. *)
Lemma append_colon_nonempty (a b : string) : Js.template [a; ":"; b] <> "".
Proof. unfold Js.template. simpl. destruct a; discriminate. Qed.

Lemma minutesToTime_nonempty (minutes : option Q) : minutesToTime minutes <> "".
Proof.
  destruct minutes as [m|]; simpl; [apply append_colon_nonempty | discriminate].
Qed.

Lemma analyzeTimePatterns_averageTime history tasks p :
  In p (analyzeTimePatterns history tasks) -> averageTimeOf p <> "".
Proof.
  rewrite analyzeTimePatterns_In. intros (taskId & _ & H).
  apply taskTimePatterns_In in H.
  destruct H as (_ & task & _ & [(sd & _ & _ & ->)|(k & g & sd & _ & _ & _ & _ & ->)]);
    apply minutesToTime_nonempty.
Qed.

Lemma dayTimeFor_filter patterns taskId day :
  List.find (isDayTimePattern taskId day) (filter isTimePattern patterns)
  = dayTimeFor patterns taskId day.
Proof.
  apply find_filter. intros p. unfold isDayTimePattern, isTimePattern, Pattern.type.
  destruct (Pattern.body p); try discriminate. reflexivity.
Qed.

Lemma generalTimeFor_filter patterns taskId :
  List.find (isGeneralTimePattern taskId) (filter isTimePattern patterns)
  = generalTimeFor patterns taskId.
Proof.
  apply find_filter. intros p. unfold isGeneralTimePattern, isTimePattern, Pattern.type.
  destruct (Pattern.body p); try discriminate. reflexivity.
Qed.

Lemma dayTimeFor_stored patterns taskId day p :
  storedTimes patterns -> dayTimeFor patterns taskId day = Some p ->
  Js.truthy (averageTimeOf p) = true.
Proof.
  intros S H. apply find_some in H. destruct H as [Hin Hp].
  apply truthy_nonempty, S; [exact Hin|]. right.
  unfold isDayTimePattern in Hp. unfold Pattern.type.
  destruct (Pattern.body p); try discriminate. reflexivity.
Qed.

Lemma generalTimeFor_stored patterns taskId p :
  storedTimes patterns -> generalTimeFor patterns taskId = Some p ->
  Js.truthy (averageTimeOf p) = true.
Proof.
  intros S H. apply find_some in H. destruct H as [Hin Hp].
  apply truthy_nonempty, S; [exact Hin|]. left.
  unfold isGeneralTimePattern in Hp. unfold Pattern.type.
  destruct (Pattern.body p); try discriminate. reflexivity.
Qed.

Lemma findTask_id tasks taskId task :
  findTask tasks taskId = Some task -> Task.id task = taskId.
Proof.
  intros H. apply find_some in H. destruct H as [_ H]. now apply String.eqb_eq in H.
Qed.

Lemma routineSuggestion_In patterns day tasks fp s :
  storedTimes patterns ->
  In s (routineSuggestion day tasks (filter isTimePattern patterns) fp) ->
  exists f task,
    Pattern.body fp = Pattern.Frequency f
    /\ typicalOn f day
    /\ findTask tasks (FrequencyP.taskId f) = Some task
    /\ Suggestion.taskId s = Task.id task
    /\ Suggestion.taskName s = Task.name task
    /\ Suggestion.category s = Task.category task
    /\ Suggestion.duration s = Task.defaultDuration task
    /\ resolved patterns fp f day s.
Proof.
  intros S. unfold routineSuggestion.
  destruct (Pattern.body fp) as [| | |f|]; try contradiction.
  destruct (Js.find _ (FrequencyP.preferredDays f)) as [d|] eqn:Ed; [|contradiction].
  destruct (Js.Qltb (DayPref.percentage d) 20) eqn:Ep; [contradiction|].
  destruct (findTask tasks (FrequencyP.taskId f)) as [task|] eqn:Et; [|contradiction].
  unfold Js.find. rewrite !dayTimeFor_filter, !generalTimeFor_filter.
  intros H. exists f, task. split; [reflexivity|]. split.
  { exists d. split; [exact Ed|]. unfold Js.Qltb in Ep.
    apply negb_false_iff in Ep. now apply Qle_bool_iff in Ep. }
  split; [exact Et|]. unfold resolved.
  destruct (dayTimeFor patterns (FrequencyP.taskId f) day) as [dp|] eqn:Edp.
  - rewrite (dayTimeFor_stored _ _ _ _ S Edp) in H. simpl in H.
    rewrite (dayTimeFor_stored _ _ _ _ S Edp) in H.
    destruct H as [<-|[]]. simpl. repeat split.
  - simpl in H.
    destruct (generalTimeFor patterns (FrequencyP.taskId f)) as [gp|] eqn:Egp.
    + rewrite (generalTimeFor_stored _ _ _ S Egp) in H.
      destruct H as [<-|[]]. simpl. repeat split. now exists gp.
    + contradiction.
Qed.

Lemma routineSuggestion_emits patterns day tasks fp f task :
  storedTimes patterns ->
  Pattern.body fp = Pattern.Frequency f ->
  typicalOn f day ->
  findTask tasks (FrequencyP.taskId f) = Some task ->
  dayTimeFor patterns (FrequencyP.taskId f) day <> None
  \/ generalTimeFor patterns (FrequencyP.taskId f) <> None ->
  exists s,
    In s (routineSuggestion day tasks (filter isTimePattern patterns) fp)
    /\ Suggestion.taskId s = Task.id task.
Proof.
  intros S Hb (d & Ed & Hp) Ht Htime. unfold routineSuggestion.
  rewrite Hb, Ed.
  assert (Ep : Js.Qltb (DayPref.percentage d) 20 = false).
  { unfold Js.Qltb. apply negb_false_iff. now apply Qle_bool_iff. }
  rewrite Ep, Ht. unfold Js.find. rewrite !dayTimeFor_filter, !generalTimeFor_filter.
  destruct (dayTimeFor patterns (FrequencyP.taskId f) day) as [dp|] eqn:Edp.
  - rewrite (dayTimeFor_stored _ _ _ _ S Edp). simpl.
    rewrite (dayTimeFor_stored _ _ _ _ S Edp).
    eexists. split; [left; reflexivity | reflexivity].
  - simpl.
    destruct (generalTimeFor patterns (FrequencyP.taskId f)) as [gp|] eqn:Egp.
    + rewrite (generalTimeFor_stored _ _ _ S Egp).
      eexists. split; [left; reflexivity | reflexivity].
    + destruct Htime as [H|H]; now elim H.
Qed.

(** C8. Over a store whose time patterns carry their average time,
    [generateRoutineSuggestion] emits a suggestion for a task of the
    catalog exactly when a frequency pattern of the task has a
    preferred-day entry for the target weekday with a share of at least 20
    percent and the task has a [time_day] pattern for that weekday or a
    general [time] pattern. Every suggestion takes the time of the
    [time_day] pattern when there is one, with the frequency pattern's
    confidence times 1.2, and otherwise the time of the [time] pattern with
    the confidence as it is. The list is sorted by suggested time, equal
    times by confidence, highest first. *)
Theorem routine_suggestions (db : DB.t) (dayOrDate : Z + string)
        (catalog : option (list Task.t)) :
  let patterns := DB.patterns db in
  let tasks := match catalog with Some tasks => tasks | None => DB.tasks db end in
  let day := match dayOrDate with
             | inl day => Some day
             | inr date => Dates.getDay date
             end in
  let suggestions := generateRoutineSuggestion db dayOrDate catalog in
  storedTimes patterns ->
  (forall task,
     findTask tasks (Task.id task) = Some task ->
     ((exists s, In s suggestions /\ Suggestion.taskId s = Task.id task)
      <-> exists fp f,
            In fp patterns
            /\ Pattern.body fp = Pattern.Frequency f
            /\ FrequencyP.taskId f = Task.id task
            /\ typicalOn f day
            /\ ((exists p, In p patterns
                           /\ isDayTimePattern (Task.id task) day p = true)
                \/ (exists p, In p patterns
                              /\ isGeneralTimePattern (Task.id task) p = true))))
  /\ (forall s,
        In s suggestions ->
        exists fp f task,
          In fp patterns
          /\ Pattern.body fp = Pattern.Frequency f
          /\ typicalOn f day
          /\ findTask tasks (FrequencyP.taskId f) = Some task
          /\ Suggestion.taskId s = Task.id task
          /\ Suggestion.duration s = Task.defaultDuration task
          /\ resolved patterns fp f day s)
  /\ StronglySorted timeThenConfidence suggestions.
Proof.
  intros patterns tasks day suggestions S.
  assert (M : forall s, In s suggestions <->
              exists fp, In fp patterns
                         /\ In s (routineSuggestion day tasks
                                    (filter isTimePattern patterns) fp)).
  { intros s. unfold suggestions, generateRoutineSuggestion.
    rewrite SortFacts.sort_In, in_flat_map.
    fold patterns tasks day. unfold DB.getAllPatterns, DB.getAllTasks.
    change (DB.patterns db) with patterns.
    change (filter (fun p => PatternType_eqb (Pattern.type p) time
                             || PatternType_eqb (Pattern.type p) time_day) patterns)
      with (filter isTimePattern patterns).
    split.
    - intros (fp & Hin & Hs). apply filter_In in Hin. exists fp. tauto.
    - intros (fp & Hin & Hs). exists fp. split; [|exact Hs].
      apply filter_In. split; [exact Hin|].
      apply routineSuggestion_In in Hs; [|exact S].
      destruct Hs as (f & task & Hb & _). unfold Pattern.type. now rewrite Hb. }
  assert (P : forall s, In s suggestions ->
              exists fp f task,
                In fp patterns /\ Pattern.body fp = Pattern.Frequency f
                /\ typicalOn f day
                /\ findTask tasks (FrequencyP.taskId f) = Some task
                /\ Suggestion.taskId s = Task.id task
                /\ Suggestion.duration s = Task.defaultDuration task
                /\ resolved patterns fp f day s).
  { intros s Hs. apply M in Hs. destruct Hs as (fp & Hin & Hs).
    apply routineSuggestion_In in Hs; [|exact S].
    destruct Hs as (f & task & Hb & Hty & Ht & Hid & _ & _ & Hd & Hr).
    exists fp, f, task. tauto. }
  split; [|split; [exact P|]].
  - intros task Hfound. split.
    + intros (s & Hs & Hid). destruct (P s Hs) as (fp & f & task' & Hin & Hb & Hty & Ht & Hid' & _ & Hr).
      assert (E : FrequencyP.taskId f = Task.id task).
      { apply findTask_id in Ht. congruence. }
      exists fp, f. split; [exact Hin|]. split; [exact Hb|]. split; [exact E|].
      split; [exact Hty|]. unfold resolved in Hr. rewrite E in Hr.
      destruct (dayTimeFor patterns (Task.id task) day) as [dp|] eqn:Edp.
      * left. exists dp. now apply find_some in Edp.
      * right. destruct Hr as (gp & Egp & _). exists gp. now apply find_some in Egp.
    + intros (fp & f & Hin & Hb & E & Hty & Htime).
      assert (Ht : findTask tasks (FrequencyP.taskId f) = Some task) by now rewrite E.
      destruct (routineSuggestion_emits patterns day tasks fp f task S Hb Hty Ht)
        as (s & Hs & Hid).
      { rewrite E. destruct Htime as [(p & Hp & Hm)|(p & Hp & Hm)].
        - left. intros Hn. unfold dayTimeFor in Hn.
          apply (find_none _ _ Hn) in Hp. congruence.
        - right. intros Hn. unfold generalTimeFor in Hn.
          apply (find_none _ _ Hn) in Hp. congruence. }
      exists s. split; [|exact Hid]. apply M. now exists fp.
  - unfold suggestions, generateRoutineSuggestion.
    apply (StronglySorted_impl (before byTimeAndConfidence)).
    + intros a b. apply before_byTimeAndConfidence.
    + apply SortFacts.sort_strongly_sorted.
      * intros a b. rewrite !before_byTimeAndConfidence. apply timeThenConfidence_total.
      * intros a b c. rewrite !before_byTimeAndConfidence. apply timeThenConfidence_trans.
Qed.

Lemma routine_suggestions_witness :
  let frequencyPattern :=
    Pattern.fresh "frequency_run"
      (Pattern.Frequency
         (FrequencyP.mk "run" "Corsa" 10 10 (35 # 10)
            [ DayPref.mk (Some 4) 5 50; DayPref.mk (Some 2) 3 30;
              DayPref.mk (Some 6) 2 20 ]))
      10 (10 # 15) in
  let timePattern :=
    Pattern.fresh "time_run"
      (Pattern.Time (TimeP.mk "run" "Corsa" "07:30" (Sqrt 25))) 10 1 in
  let db := DB.mk Examples.tasks [] [] [frequencyPattern; timePattern] None None in
  storedTimes (DB.patterns db)
  /\ (exists s, In s (generateRoutineSuggestion db (inl 2) None)
                /\ Suggestion.taskId s = "run")
  /\ map (fun s => (Suggestion.suggestedTime s, Suggestion.confidence s,
                    Suggestion.reason s))
         (generateRoutineSuggestion db (inl 2) None)
     = [ ("07:30", ((10 # 15) * 1)%Q, "Orario abituale: 07:30") ].
Proof.
  intros frequencyPattern timePattern db.
  assert (S : storedTimes (DB.patterns db)).
  { intros p [<-|[<-|[]]] Hty.
    - destruct Hty; discriminate.
    - discriminate. }
  split; [exact S|]. split; [|vm_compute; reflexivity].
  destruct (routine_suggestions db (inl 2) None S) as (A & _).
  apply (A (Task.mk "run" "Corsa" "health" 30)); [reflexivity|].
  exists frequencyPattern, (FrequencyP.mk "run" "Corsa" 10 10 (35 # 10)
            [ DayPref.mk (Some 4) 5 50; DayPref.mk (Some 2) 3 30;
              DayPref.mk (Some 6) 2 20 ]).
  split; [left; reflexivity|]. split; [reflexivity|]. split; [reflexivity|].
  split.
  - exists (DayPref.mk (Some 2) 3 30). split; [reflexivity|]. discriminate.
  - right. exists timePattern. split; [right; left; reflexivity | reflexivity].
Defined.

(* ================================================================== *)
(** ** Running [analyze] twice *)
(* ================================================================== *)

Lemma savePattern_inputs env n p db : sameInputs (snd (DB.savePattern env n p db)) db.
Proof. unfold DB.savePattern, sameInputs. simpl. tauto. Qed.

Lemma saveAll_inputs env l : forall n db, sameInputs (snd (saveAll env n l db)) db.
Proof.
  induction l as [|p r IH]; intros n db; cbn [saveAll].
  - unfold sameInputs. simpl. tauto.
  - destruct (DB.savePattern env n p db) as [saved db1] eqn:E1.
    destruct (saveAll env (S n) r db1) as [others db2] eqn:E2. simpl.
    pose proof (IH (S n) db1) as H2. rewrite E2 in H2. simpl in H2.
    pose proof (savePattern_inputs env n p db) as H1. rewrite E1 in H1. simpl in H1.
    unfold sameInputs in *. intuition congruence.
Qed.

(** Saving keeps the identifier of a pattern that has one, and changes
    nothing but the stamp. *)
Lemma saveAll_unstamped env l : forall n db,
  Forall (fun p => Pattern.id p <> "") l ->
  map unstamped (fst (saveAll env n l db)) = map unstamped l.
Proof.
  induction l as [|p r IH]; intros n db F; cbn [saveAll]; [reflexivity|].
  inversion F as [|? ? Hp Fr]; subst.
  destruct (DB.savePattern env n p db) as [saved db1] eqn:E1.
  destruct (saveAll env (S n) r db1) as [others db2] eqn:E2. simpl.
  pose proof (IH (S n) db1 Fr) as H. rewrite E2 in H. simpl in H. rewrite H.
  f_equal. unfold DB.savePattern in E1. injection E1 as <- _.
  unfold unstamped. simpl. unfold Js.orElse. now rewrite truthy_nonempty.
Qed.

Lemma template_prefix_nonempty (c : ascii) (prefix : string) (rest : list string) :
  Js.template (String c prefix :: rest) <> "".
Proof. unfold Js.template. destruct rest; simpl; discriminate. Qed.

Lemma time_patterns_named history tasks p :
  In p (analyzeTimePatterns history tasks) -> Pattern.id p <> "".
Proof.
  rewrite analyzeTimePatterns_In. intros (taskId & _ & H).
  apply taskTimePatterns_In in H.
  destruct H as (_ & task & _ & [(sd & _ & _ & ->)|(k & g & sd & _ & _ & _ & _ & ->)]);
    apply template_prefix_nonempty.
Qed.

Lemma duration_patterns_named history tasks p :
  In p (analyzeDurationPatterns history tasks) -> Pattern.id p <> "".
Proof.
  unfold analyzeDurationPatterns. rewrite in_flat_map.
  intros ([taskId durations] & _ & H). unfold taskDurationPatterns in H.
  destruct (Js.len durations <? 3); [contradiction|].
  destruct (findTask tasks taskId) as [task|]; [|contradiction].
  destruct H as [<-|[]]. apply template_prefix_nonempty.
Qed.

Lemma frequency_patterns_named history tasks p :
  In p (analyzeFrequencyPatterns history tasks) -> Pattern.id p <> "".
Proof.
  unfold analyzeFrequencyPatterns. destruct (Js.len _ <? 2); [contradiction|].
  rewrite in_flat_map. intros ([taskId freq] & _ & H).
  unfold taskFrequencyPatterns in H.
  destruct (findTask tasks taskId) as [task|]; [|contradiction].
  destruct H as [<-|[]]. apply template_prefix_nonempty.
Qed.

Lemma sequence_patterns_named history tasks p :
  In p (analyzeSequencePatterns history tasks) -> Pattern.id p <> "".
Proof.
  intros H. apply analyzeSequencePatterns_In in H. destruct H as (key & seq & _ & H).
  apply sequencePatterns_In in H. destruct H as (_ & a & b & ->).
  apply template_prefix_nonempty.
Qed.

Lemma category_patterns_named tasks periodCategories bucket p :
  In p (categoryPatterns tasks periodCategories bucket) -> Pattern.id p <> "".
Proof.
  destruct bucket as [categoryId categoryHistory]. unfold categoryPatterns.
  destruct (3 <=? Js.len categoryHistory); [|contradiction].
  rewrite in_map_iff. intros (q & <- & _). simpl.
  unfold Js.template. simpl. destruct (Pattern.id q); discriminate.
Qed.

Lemma compare_refl (x : string) : String.compare x x = Eq.
Proof. apply OrderedTypeEx.String_as_OT.cmp_eq. reflexivity. Qed.

Lemma compare_Gt_Lt (x y : string) : String.compare x y = Gt -> String.compare y x = Lt.
Proof. intros H. rewrite String.compare_antisym, H. reflexivity. Qed.

Lemma put_In (data : Pattern.t) (store : list Pattern.t) (x : Pattern.t) :
  In x (DB.put data store) -> x = data \/ In x store.
Proof.
  induction store as [|p r IH]; simpl.
  - intros [<-|[]]. now left.
  - destruct (String.compare (Pattern.id data) (Pattern.id p)); simpl.
    + intros [<-|H]; [now left | right; now right].
    + intros [<-|H]; [now left | now right].
    + intros [<-|H]; [right; now left|]. destruct (IH H); [now left | right; now right].
Qed.

Lemma put_keyOrdered (data : Pattern.t) (store : list Pattern.t) :
  keyOrdered store -> keyOrdered (DB.put data store).
Proof.
  unfold keyOrdered. induction store as [|p r IH]; simpl; intros S.
  - repeat constructor.
  - inversion S as [|? ? Sr Hall]; subst.
    destruct (String.compare (Pattern.id data) (Pattern.id p)) eqn:E.
    + apply String.compare_eq_iff in E. constructor; [exact Sr|].
      eapply Forall_impl; [|exact Hall]. intros x Hx. now rewrite E.
    + constructor; [exact S|]. constructor; [exact E|].
      eapply Forall_impl; [|exact Hall]. intros x Hx.
      eapply compare_Lt_trans; eassumption.
    + constructor; [now apply IH|].
      apply Forall_forall. intros x Hx. apply put_In in Hx. destruct Hx as [->|Hx].
      * now apply compare_Gt_Lt.
      * rewrite Forall_forall in Hall. now apply Hall.
Qed.

Lemma put_ids_present (data : Pattern.t) (store : list Pattern.t) :
  keyOrdered store ->
  In (Pattern.id data) (map Pattern.id store) ->
  map Pattern.id (DB.put data store) = map Pattern.id store.
Proof.
  unfold keyOrdered. induction store as [|p r IH]; simpl; intros S Hin; [contradiction|].
  inversion S as [|? ? Sr Hall]; subst.
  destruct (String.compare (Pattern.id data) (Pattern.id p)) eqn:E; simpl.
  - apply String.compare_eq_iff in E. now rewrite E.
  - exfalso. destruct Hin as [Hin|Hin].
    + rewrite Hin, compare_refl in E. discriminate.
    + apply in_map_iff in Hin. destruct Hin as (x & Hx & Hin).
      rewrite Forall_forall in Hall. specialize (Hall x Hin). rewrite Hx in Hall.
      pose proof (compare_Lt_trans _ _ _ E Hall) as C.
      rewrite compare_refl in C. discriminate.
  - f_equal. apply IH; [exact Sr|]. destruct Hin as [Hin|Hin]; [|exact Hin].
    rewrite Hin, compare_refl in E. discriminate.
Qed.

Lemma put_ids (data : Pattern.t) (store : list Pattern.t) (x : string) :
  x = Pattern.id data \/ In x (map Pattern.id store) ->
  In x (map Pattern.id (DB.put data store)).
Proof.
  induction store as [|p r IH]; simpl.
  - intros [->|[]]. now left.
  - destruct (String.compare (Pattern.id data) (Pattern.id p)) eqn:E; simpl.
    + apply String.compare_eq_iff in E. intros [->|[<-|H]]; auto.
    + intros [->|[<-|H]]; auto.
    + intros [->|[<-|H]]; auto.
Qed.

Lemma saveAll_keyOrdered env l : forall n db,
  keyOrdered (DB.patterns db) -> keyOrdered (DB.patterns (snd (saveAll env n l db))).
Proof.
  induction l as [|p r IH]; intros n db K; cbn [saveAll]; [exact K|].
  destruct (DB.savePattern env n p db) as [saved db1] eqn:E1.
  destruct (saveAll env (S n) r db1) as [others db2] eqn:E2. simpl.
  pose proof (IH (S n) db1) as H. rewrite E2 in H. apply H.
  unfold DB.savePattern in E1. injection E1 as _ <-. simpl. now apply put_keyOrdered.
Qed.

(** After a save the store holds the identifier of every saved pattern,
    and those it held before. *)
Lemma saveAll_ids env l : forall n db x,
  Forall (fun p => Pattern.id p <> "") l ->
  In x (map Pattern.id l) \/ In x (map Pattern.id (DB.patterns db)) ->
  In x (map Pattern.id (DB.patterns (snd (saveAll env n l db)))).
Proof.
  induction l as [|p r IH]; intros n db x F H; cbn [saveAll].
  - destruct H as [[]|H]. exact H.
  - inversion F as [|? ? Hp Fr]; subst.
    destruct (DB.savePattern env n p db) as [saved db1] eqn:E1.
    destruct (saveAll env (S n) r db1) as [others db2] eqn:E2. simpl.
    pose proof (IH (S n) db1 x Fr) as G. rewrite E2 in G. apply G.
    unfold DB.savePattern in E1. injection E1 as _ <-. simpl.
    destruct H as [[<-|H]|H].
    + right. apply put_ids. left. simpl. unfold Js.orElse. now rewrite truthy_nonempty.
    + now left.
    + right. apply put_ids. now right.
Qed.

(** Saving patterns whose identifiers the store already holds replaces
    them in place: the store keeps its identifiers. *)
Lemma saveAll_ids_present env l : forall n db,
  keyOrdered (DB.patterns db) ->
  Forall (fun p => Pattern.id p <> ""
                   /\ In (Pattern.id p) (map Pattern.id (DB.patterns db))) l ->
  map Pattern.id (DB.patterns (snd (saveAll env n l db)))
  = map Pattern.id (DB.patterns db).
Proof.
  induction l as [|p r IH]; intros n db K F; cbn [saveAll]; [reflexivity|].
  inversion F as [|? ? [Hp Hin] Fr]; subst.
  destruct (DB.savePattern env n p db) as [saved db1] eqn:E1.
  destruct (saveAll env (S n) r db1) as [others db2] eqn:E2. simpl.
  unfold DB.savePattern in E1. injection E1 as _ <-.
  assert (Ei : Js.orElse (Pattern.id p) (DB.generateId env n) = Pattern.id p)
    by (unfold Js.orElse; now rewrite truthy_nonempty).
  set (stamped := {| Pattern.id := Js.orElse (Pattern.id p) (DB.generateId env n);
                     Pattern.body := Pattern.body p;
                     Pattern.sampleSize := Pattern.sampleSize p;
                     Pattern.confidence := Pattern.confidence p;
                     Pattern.periodCategory := Pattern.periodCategory p;
                     Pattern.periodCategoryName := Pattern.periodCategoryName p;
                     Pattern.updatedAt := Some (DB.toISOString env n) |}) in *.
  assert (E : map Pattern.id (DB.put stamped (DB.patterns db))
              = map Pattern.id (DB.patterns db)).
  { apply put_ids_present; [exact K|]. unfold stamped. simpl. now rewrite Ei. }
  match type of E2 with saveAll _ _ _ ?d = _ => pose proof (IH (S n) d) as G end.
  rewrite E2 in G. simpl in G. rewrite G; [exact E| now apply put_keyOrdered |].
  simpl. rewrite E. exact Fr.
Qed.

Lemma minedPatterns_named db : Forall (fun p => Pattern.id p <> "") (minedPatterns db).
Proof.
  apply Forall_forall. intros p H. unfold minedPatterns in H.
  repeat (apply in_app_or in H; destruct H as [H|H]).
  - now apply time_patterns_named in H.
  - now apply duration_patterns_named in H.
  - now apply frequency_patterns_named in H.
  - now apply sequence_patterns_named in H.
  - apply in_flat_map in H. destruct H as (bucket & _ & H).
    now apply category_patterns_named in H.
Qed.

Lemma minedPatterns_inputs a b : sameInputs a b -> minedPatterns a = minedPatterns b.
Proof.
  intros (Ht & Hh & _ & Hp & Hc). unfold minedPatterns. now rewrite Ht, Hh, Hp, Hc.
Qed.

(** Past the gate, the patterns [analyze] returns are the mined ones as
    [saveAll] stamped them, and the store is the one [saveAll] leaves. *)
Lemma analyze_saves env db :
  (Js.len (DB.history db) <? MIN_HISTORY_FOR_PATTERNS) = false ->
  Result.patterns (fst (analyze env db)) = fst (saveAll env 0 (minedPatterns db) db)
  /\ snd (analyze env db) = snd (saveAll env 0 (minedPatterns db) db).
Proof.
  intros G. unfold analyze. unfold DB.getAllHistory. rewrite G.
  cbv zeta. unfold DB.getAllTasks.
  fold (minedPatterns db).
  destruct (saveAll env 0 (minedPatterns db) db) as [saved db'] eqn:E.
  split; reflexivity.
Qed.

Lemma analyze_gated env db :
  (Js.len (DB.history db) <? MIN_HISTORY_FOR_PATTERNS) = true ->
  snd (analyze env db) = db
  /\ forall env', analyze env' db = analyze env db.
Proof.
  intros G. unfold analyze. unfold DB.getAllHistory. rewrite G. split; reflexivity.
Qed.

(** The insights depend on nothing but the inputs. *)
Lemma analyze_insights env env' a b :
  sameInputs a b ->
  Result.insights (fst (analyze env a)) = Result.insights (fst (analyze env' b)).
Proof.
  intros (Ht & Hh & Hs & Hp & Hc). unfold analyze.
  unfold DB.getAllHistory, DB.getAllTasks. rewrite Ht, Hh, Hs, Hp, Hc.
  destruct (Js.len (DB.history b) <? MIN_HISTORY_FOR_PATTERNS); [reflexivity|].
  cbv zeta.
  destruct (saveAll env 0 _ a) as [saved1 db1].
  destruct (saveAll env' 0 _ b) as [saved2 db2].
  reflexivity.
Qed.

Lemma analyze_inputs env db : sameInputs (snd (analyze env db)) db.
Proof.
  destruct (Js.len (DB.history db) <? MIN_HISTORY_FOR_PATTERNS) eqn:G.
  - destruct (analyze_gated env db G) as [-> _]. unfold sameInputs. tauto.
  - destruct (analyze_saves env db G) as [_ ->]. apply saveAll_inputs.
Qed.

(** Two runs with different clock readings return patterns that differ:
    each saved pattern carries the time of its own save in [updatedAt]. *)
Lemma analyze_twice_restamps :
  let history :=
    [ Examples.done "run" "2024-01-15" "07:00" "07:30" 30 30;
      Examples.done "run" "2024-01-16" "07:10" "07:40" 30 30;
      Examples.done "run" "2024-01-17" "07:20" "07:50" 30 30;
      Examples.done "mail" "2024-01-17" "09:00" "09:45" 45 45;
      Examples.done "mail" "2024-01-18" "09:00" "09:45" 45 45 ] in
  let first := analyze (Examples.env "2024-01-19T08:00:00.000Z") (Examples.store history) in
  let second := analyze (Examples.env "2024-01-19T08:00:05.000Z") (snd first) in
  map (fun p => (Pattern.id p, Pattern.updatedAt p)) (Result.patterns (fst first))
  = [ ("time_run", Some "2024-01-19T08:00:00.000Z");
      ("duration_run", Some "2024-01-19T08:00:00.000Z");
      ("frequency_run", Some "2024-01-19T08:00:00.000Z");
      ("frequency_mail", Some "2024-01-19T08:00:00.000Z") ]
  /\ map (fun p => (Pattern.id p, Pattern.updatedAt p)) (Result.patterns (fst second))
     = [ ("time_run", Some "2024-01-19T08:00:05.000Z");
         ("duration_run", Some "2024-01-19T08:00:05.000Z");
         ("frequency_run", Some "2024-01-19T08:00:05.000Z");
         ("frequency_mail", Some "2024-01-19T08:00:05.000Z") ]
  /\ Result.patterns (fst second) <> Result.patterns (fst first).
Proof.
  intros history first second.
  assert (H1 : map (fun p => (Pattern.id p, Pattern.updatedAt p))
                   (Result.patterns (fst first))
               = [ ("time_run", Some "2024-01-19T08:00:00.000Z");
                   ("duration_run", Some "2024-01-19T08:00:00.000Z");
                   ("frequency_run", Some "2024-01-19T08:00:00.000Z");
                   ("frequency_mail", Some "2024-01-19T08:00:00.000Z") ])
    by (vm_compute; reflexivity).
  assert (H2 : map (fun p => (Pattern.id p, Pattern.updatedAt p))
                   (Result.patterns (fst second))
               = [ ("time_run", Some "2024-01-19T08:00:05.000Z");
                   ("duration_run", Some "2024-01-19T08:00:05.000Z");
                   ("frequency_run", Some "2024-01-19T08:00:05.000Z");
                   ("frequency_mail", Some "2024-01-19T08:00:05.000Z") ])
    by (vm_compute; reflexivity).
  split; [exact H1|]. split; [exact H2|].
  clearbody second. clearbody first. clear history.
  intros E. rewrite E, H1 in H2. discriminate.
Qed.

(** C9 (as the code has it). A run of [analyze] leaves the tasks, the
    history, the schedule and the period settings as they were, and a
    second run after it, whatever the clock reads, returns the same top-10
    insights in the same order and the same patterns one for one, under
    the same identifiers, equal in every field except the [updatedAt]
    stamp that [DB.savePattern] sets at each save. Over a store in key
    order the second run adds no key: each pattern is saved over the one
    of the first run. *)
Theorem analyze_twice (env1 env2 : DB.Env) (db : DB.t) :
  let first := analyze env1 db in
  let second := analyze env2 (snd first) in
  sameInputs (snd first) db
  /\ Result.insights (fst second) = Result.insights (fst first)
  /\ map unstamped (Result.patterns (fst second))
     = map unstamped (Result.patterns (fst first))
  /\ map Pattern.id (Result.patterns (fst second))
     = map Pattern.id (Result.patterns (fst first))
  /\ (keyOrdered (DB.patterns db) ->
      map Pattern.id (DB.patterns (snd second))
      = map Pattern.id (DB.patterns (snd first))).
Proof.
  intros first second. unfold second, first. clear first second.
  assert (I : sameInputs (snd (analyze env1 db)) db) by apply analyze_inputs.
  assert (U : map unstamped (Result.patterns (fst (analyze env2 (snd (analyze env1 db)))))
              = map unstamped (Result.patterns (fst (analyze env1 db)))
              /\ (keyOrdered (DB.patterns db) ->
                  map Pattern.id (DB.patterns (snd (analyze env2 (snd (analyze env1 db)))))
                  = map Pattern.id (DB.patterns (snd (analyze env1 db))))).
  { destruct (Js.len (DB.history db) <? MIN_HISTORY_FOR_PATTERNS) eqn:G.
    - destruct (analyze_gated env1 db G) as [E H]. rewrite E.
      destruct (analyze_gated env2 db G) as [E2 _]. rewrite E2.
      split; [now rewrite (H env2) | reflexivity].
    - assert (G' : (Js.len (DB.history (snd (analyze env1 db)))
                    <? MIN_HISTORY_FOR_PATTERNS) = false).
      { destruct I as (_ & -> & _). exact G. }
      destruct (analyze_saves env2 _ G') as [-> ->].
      rewrite (minedPatterns_inputs _ _ I).
      destruct (analyze_saves env1 db G) as [-> ->].
      split.
      + rewrite !saveAll_unstamped by apply minedPatterns_named. reflexivity.
      + intros K. apply saveAll_ids_present.
        * now apply saveAll_keyOrdered.
        * pose proof (minedPatterns_named db) as N.
          apply Forall_forall. intros p Hp. split.
          -- rewrite Forall_forall in N. now apply N.
          -- apply saveAll_ids; [exact N|]. left. now apply in_map. }
  destruct U as [U S].
  split; [exact I|]. split; [apply analyze_insights; exact I|].
  split; [exact U|]. split; [|exact S].
  assert (E : forall l, map Pattern.id l = map Pattern.id (map unstamped l)).
  { intros l. rewrite map_map. reflexivity. }
  rewrite (E (Result.patterns (fst (analyze env2 _)))), (E (Result.patterns (fst (analyze env1 db)))).
  now rewrite U.
Qed.

Lemma analyze_twice_witness :
  keyOrdered (DB.patterns (Examples.store Examples.week))
  /\ map Pattern.id
         (DB.patterns
            (snd (analyze (Examples.env "2024-01-19T08:00:05.000Z")
                    (snd (analyze (Examples.env "2024-01-19T08:00:00.000Z")
                            (Examples.store Examples.week))))))
     = map Pattern.id
           (DB.patterns
              (snd (analyze (Examples.env "2024-01-19T08:00:00.000Z")
                      (Examples.store Examples.week)))).
Proof.
  assert (K : keyOrdered (DB.patterns (Examples.store Examples.week))) by constructor.
  split; [exact K|].
  exact (proj2 (proj2 (proj2 (proj2
           (analyze_twice (Examples.env "2024-01-19T08:00:00.000Z")
                          (Examples.env "2024-01-19T08:00:05.000Z")
                          (Examples.store Examples.week))))) K).
Defined.
